(** * LIS3MDL magnetometer driver: register codec and bus operations

    A shallow embedding of [magnetometer.h] / [magnetometer.c].  Register
    bytes are integers in [0, 256) with the C conversions written out; the
    five driver entry points are programs in a small state-and-trace monad
    over an abstract I2C transport, so that every bus access an operation
    issues is visible in the trace it returns. *)

From Stdlib Require Import ZArith List Lia Bool.
From stdpp Require Import base option gmap.
Import ListNotations.
Local Open Scope Z_scope.

(** ** C integer kinds *)

(** Conversion to [uint8_t] / [uint16_t] on assignment or cast. *)
Definition to_uint8 (x : Z) : Z := x mod 256.
Definition to_uint16 (x : Z) : Z := x mod 65536.

(** Values representable in the two unsigned kinds. *)
Definition uint8 (x : Z) : Prop := 0 <= x < 256.
Definition uint16 (x : Z) : Prop := 0 <= x < 65536.

(** Reading of a 16-bit pattern as a two's-complement number, which is what
    a caller does when it copies the [uint16_t] sample into an [int16_t]. *)
Definition as_int16 (x : Z) : Z := if x <? 32768 then x else x - 65536.

(** An output parameter: either the null pointer or a reference to a cell
    of the caller holding some value. *)
Inductive ptr : Type :=
| NULL
| Ref (cell : Z).

(** ** magnetometer.h *)

Definition REG_CTRL_REG_1 : Z := 0x20.
Definition REG_CTRL_REG_2 : Z := 0x21.

Inductive status_mag_t : Type :=
| STATUS_MAG_OK
| STATUS_MAG_ERROR
| STATUS_BUS_ERROR.

Definition GET_BIT (data mask pos : Z) : Z := Z.shiftr (Z.land data mask) pos.
Definition SET_BIT (data mask pos : Z) : Z := Z.land (Z.shiftl data pos) mask.

Definition I2C_BUS_ADDR : Z := 0x1C.
Definition NUM_OF_BYTES_2 : Z := 2.
Definition NUM_OF_BYTES_1 : Z := 1.

Definition REG_CTRL_REG2_BIT_MASK_FS1_FS0 : Z := 0x60.
Definition REG_CTRL_REG2_BIT_POS_FS1_FS0 : Z := 5.

Definition RANGE_4_GAUSS : Z := 0.
Definition RANGE_8_GAUSS : Z := 1.
Definition RANGE_12_GAUSS : Z := 2.
Definition RANGE_16_GAUSS : Z := 3.

Definition DATARATE_0_625_Hz : Z := 0.
Definition DATARATE_1_25_Hz : Z := 1.
Definition DATARATE_2_5_Hz : Z := 2.
Definition DATARATE_5_Hz : Z := 3.
Definition DATARATE_10_Hz : Z := 4.
Definition DATARATE_20_Hz : Z := 5.
Definition DATARATE_40_Hz : Z := 6.
Definition DATARATE_80_Hz : Z := 7.
Definition DATARATE_155_Hz : Z := 8.
Definition DATARATE_300_Hz : Z := 9.
Definition DATARATE_560_Hz : Z := 10.
Definition DATARATE_1000_Hz : Z := 11.

Definition LOW_POWER_MODE : Z := 0.
Definition MEDIUM_PERFORMANCE_MODE : Z := 1.
Definition HIGH_PERFORMANCE_MODE : Z := 2.
Definition ULTRAHIGH_PERFORMANCE_MODE : Z := 3.

Definition REG_CTRL_REG1_BIT_MASK_D02_DO1_DO0 : Z := 0x1C.
Definition REG_CTRL_REG1_BIT_POS_D02_DO1_DO0 : Z := 2.
Definition REG_CTRL_REG1_BIT_MASK_OM1_OM0 : Z := 0x60.
Definition REG_CTRL_REG1_BIT_POS_OM1_OM0 : Z := 5.
Definition REG_CTRL_REG1_BIT_MASK_FAST_ORD : Z := 0x2.
Definition REG_CTRL_REG1_BIT_POS_FAST_ORD : Z := 1.
Definition REG_CTRL_REG1_BIT_VAL_FAST_ORD : Z := 2.

Definition LIS3MDL_REG_INT_CFG : Z := 0x30.
Definition LIS3MDL_REG_INT_CFG_MASK_IEN : Z := 0x01.

Definition LIS3MDL_OUT_X_L_REG : Z := 0x28.
Definition LIS3MDL_OUT_X_H_REG : Z := 0x29.
Definition LIS3MDL_OUT_Y_L_REG : Z := 0x2A.
Definition LIS3MDL_OUT_Y_H_REG : Z := 0x2B.
Definition LIS3MDL_OUT_Z_L_REG : Z := 0x2C.
Definition LIS3MDL_OUT_Z_H_REG : Z := 0x2D.

Definition LIS3MDL_AXIS_X : Z := 0.
Definition LIS3MDL_AXIS_Y : Z := 1.
Definition LIS3MDL_AXIS_Z : Z := 2.

(** The three fields of control register 1 that the data-rate code is
    spread over: DO2..DO0 (bits 4:2), FAST_ODR (bit 1), OM1..OM0 (bits 6:5). *)
Definition CTRL_REG1_RATE_FIELDS : Z :=
  Z.lor REG_CTRL_REG1_BIT_MASK_D02_DO1_DO0
    (Z.lor REG_CTRL_REG1_BIT_MASK_FAST_ORD REG_CTRL_REG1_BIT_MASK_OM1_OM0).

(** ** The I2C transport *)

(** Modelled from the spec: [i2c.h] is not among the sources.  Its status
    type has a success value [STATUS_OK], which is zero (the full-scale query
    tests the returned status for being non-zero, the other four operations
    compare it with [STATUS_OK]), and a failure value. *)
Inductive status_t : Type :=
| STATUS_OK
| STATUS_ERROR.

Definition status_t_eqb (a b : status_t) : bool :=
  match a, b with
  | STATUS_OK, STATUS_OK | STATUS_ERROR, STATUS_ERROR => true
  | _, _ => false
  end.

(** The integer value of a status, as tested by [if (i2c_read (...))]. *)
Definition status_t_nonzero (a : status_t) : bool :=
  match a with
  | STATUS_OK => false
  | STATUS_ERROR => true
  end.

(** Modelled from the spec: the bus transport collaborator, whose
    implementation is not among the sources.  [i2c_read addr reg len] returns
    a status and the contents of the caller's [len]-byte buffer after the
    call; [i2c_write addr reg len data] returns a status.  Both may change the
    state [D] of the device behind the bus. *)
Class Transport (D : Type) : Type := {
  i2c_read : Z -> Z -> Z -> D -> status_t * list Z * D;
  i2c_write : Z -> Z -> Z -> list Z -> D -> status_t * D
}.

(** One access to the bus, as seen at the transport boundary. *)
Inductive bus_call : Type :=
| I2C_READ (addr reg len : Z)
| I2C_WRITE (addr reg len : Z) (data : list Z).

Definition bus_event : Type := bus_call * status_t.

Definition is_write (e : bus_event) : bool :=
  match e.1 with
  | I2C_WRITE _ _ _ _ => true
  | I2C_READ _ _ _ => false
  end.

Definition failed (e : bus_event) : bool := status_t_nonzero e.2.

(** ** Programs over the bus

    [io D A] is a computation that starts from a device state, returns a
    value, the new device state and the bus accesses it made, in order. *)
Definition io (D A : Type) : Type := D -> A * D * list bus_event.

Definition ret {D A : Type} (a : A) : io D A := fun d => (a, d, []).

Definition bind {D A B : Type} (m : io D A) (k : A -> io D B) : io D B :=
  fun d =>
    let '(a, d1, t1) := m d in
    let '(b, d2, t2) := k a d1 in
    (b, d2, t1 ++ t2).

#[global] Instance io_ret {D : Type} : MRet (io D) := fun A => @ret D A.
#[global] Instance io_bind {D : Type} : MBind (io D) :=
  fun A B k m => @bind D A B m k.

Definition result {D A : Type} (r : A * D * list bus_event) : A := r.1.1.
Definition device {D A : Type} (r : A * D * list bus_event) : D := r.1.2.
Definition trace {D A : Type} (r : A * D * list bus_event) : list bus_event := r.2.

Section Driver.

Context {D : Type} `{Transport D}.

Definition bus_read (addr reg len : Z) : io D (status_t * list Z) :=
  fun d =>
    let '(st, buf, d') := i2c_read addr reg len d in
    ((st, buf), d', [(I2C_READ addr reg len, st)]).

Definition bus_write (addr reg len : Z) (data : list Z) : io D status_t :=
  fun d =>
    let '(st, d') := i2c_write addr reg len data d in
    (st, d', [(I2C_WRITE addr reg len data, st)]).

(** ** magnetometer.c *)

(** The range check on the extracted full-scale code and the store through
    the output pointer (the inner [if]/[else] of the full-scale query). *)
Definition fullScale_store (fullScaleRead : Z) (pFullScaleRange : ptr)
  : status_mag_t * ptr :=
  if (fullScaleRead <? RANGE_4_GAUSS) || (fullScaleRead >? RANGE_16_GAUSS)
  then (STATUS_MAG_ERROR, pFullScaleRange)
  else (STATUS_MAG_OK, Ref fullScaleRead).

Definition LIS3MDL_getFullScaleConfig (pFullScaleRange : ptr)
  : io D (status_mag_t * ptr) :=
  match pFullScaleRange with
  | NULL => ret (STATUS_MAG_ERROR, NULL)
  | Ref _ =>
      '(st, i2cReadBuffer) ←
        bus_read I2C_BUS_ADDR REG_CTRL_REG_2 NUM_OF_BYTES_1;
      if status_t_nonzero st then ret (STATUS_BUS_ERROR, pFullScaleRange)
      else
        let fullScaleRead :=
          to_uint8 (GET_BIT (nth 0 i2cReadBuffer 0)
                      REG_CTRL_REG2_BIT_MASK_FS1_FS0
                      REG_CTRL_REG2_BIT_POS_FS1_FS0) in
        ret (fullScale_store fullScaleRead pFullScaleRange)
  end.

(** The [switch] choosing the operative mode of a fast data rate.  Its
    [default] leaves [omValue] as it was: [omValue0] is the indeterminate
    value the uninitialised local starts with. *)
Definition omValue_of_dataRate (omValue0 dataRate : Z) : Z :=
  if dataRate =? DATARATE_155_Hz then ULTRAHIGH_PERFORMANCE_MODE
  else if dataRate =? DATARATE_300_Hz then HIGH_PERFORMANCE_MODE
  else if dataRate =? DATARATE_560_Hz then MEDIUM_PERFORMANCE_MODE
  else if dataRate =? DATARATE_1000_Hz then LOW_POWER_MODE
  else omValue0.

(** The bits encoded for [dataRate] before they are combined with the
    register's current value; [None] on the invalid-rate branch. *)
Definition dataRate_bits (omValue0 dataRate : Z) : option Z :=
  if (dataRate >=? DATARATE_0_625_Hz) && (dataRate <=? DATARATE_80_Hz) then
    Some (to_uint8 (SET_BIT dataRate REG_CTRL_REG1_BIT_MASK_D02_DO1_DO0
                      REG_CTRL_REG1_BIT_POS_D02_DO1_DO0))
  else if (dataRate >? DATARATE_80_Hz) && (dataRate <=? DATARATE_1000_Hz) then
    let i2cWriteBuffer := REG_CTRL_REG1_BIT_VAL_FAST_ORD in
    let omValue := omValue_of_dataRate omValue0 dataRate in
    Some (to_uint8 (Z.lor i2cWriteBuffer
                      (SET_BIT omValue REG_CTRL_REG1_BIT_MASK_OM1_OM0
                         REG_CTRL_REG1_BIT_POS_OM1_OM0)))
  else None.

(** The byte written back for a register holding [currentRegValue]. *)
Definition dataRate_regValue (omValue0 dataRate currentRegValue : Z) : option Z :=
  match dataRate_bits omValue0 dataRate with
  | Some i2cWriteBuffer => Some (to_uint8 (Z.lor i2cWriteBuffer currentRegValue))
  | None => None
  end.

Definition LIS3MDL_setOutputDataRate (omValue0 dataRate : Z) : io D status_mag_t :=
  '(st, buf) ← bus_read I2C_BUS_ADDR REG_CTRL_REG_1 NUM_OF_BYTES_1;
  if negb (status_t_eqb st STATUS_OK) then ret STATUS_BUS_ERROR
  else
    let currentRegValue := nth 0 buf 0 in
    match dataRate_regValue omValue0 dataRate currentRegValue with
    | None => ret STATUS_MAG_ERROR
    | Some i2cWriteBuffer =>
        st' ← bus_write I2C_BUS_ADDR REG_CTRL_REG_1 NUM_OF_BYTES_1
                 [i2cWriteBuffer];
        ret (if status_t_eqb st' STATUS_OK then STATUS_MAG_OK
             else STATUS_BUS_ERROR)
    end.

(** Decoding of a control-register-1 byte into a data-rate code: the part
    of the data-rate query after the bus read.  [None] is the [default]
    branch of the [switch], which returns [STATUS_MAG_ERROR] without storing. *)
Definition dataRate_decode (regValue : Z) : option Z :=
  let fastOdrValue :=
    to_uint8 (GET_BIT regValue REG_CTRL_REG1_BIT_MASK_FAST_ORD
                REG_CTRL_REG1_BIT_POS_FAST_ORD) in
  if fastOdrValue =? 0 then
    Some (to_uint8 (GET_BIT regValue REG_CTRL_REG1_BIT_MASK_D02_DO1_DO0
                      REG_CTRL_REG1_BIT_POS_D02_DO1_DO0))
  else
    let omValue :=
      to_uint8 (GET_BIT regValue REG_CTRL_REG1_BIT_MASK_OM1_OM0
                  REG_CTRL_REG1_BIT_POS_OM1_OM0) in
    if omValue =? LOW_POWER_MODE then Some DATARATE_1000_Hz
    else if omValue =? MEDIUM_PERFORMANCE_MODE then Some DATARATE_560_Hz
    else if omValue =? HIGH_PERFORMANCE_MODE then Some DATARATE_300_Hz
    else if omValue =? ULTRAHIGH_PERFORMANCE_MODE then Some DATARATE_155_Hz
    else None.

Definition LIS3MDL_getOutputDataRate (dataRate : ptr) : io D (status_mag_t * ptr) :=
  match dataRate with
  | NULL => ret (STATUS_MAG_ERROR, NULL)
  | Ref _ =>
      '(st, i2cReadBuffer) ←
        bus_read I2C_BUS_ADDR REG_CTRL_REG_1 NUM_OF_BYTES_1;
      if negb (status_t_eqb st STATUS_OK) then ret (STATUS_BUS_ERROR, dataRate)
      else
        match dataRate_decode (nth 0 i2cReadBuffer 0) with
        | Some rate => ret (STATUS_MAG_OK, Ref rate)
        | None => ret (STATUS_MAG_ERROR, dataRate)
        end
  end.

(** The new value of the interrupt-configuration register. *)
Definition intCfg_regValue (enableDisable i2cReadBuffer : Z) : Z :=
  if enableDisable =? 1 then
    to_uint8 (Z.lor i2cReadBuffer LIS3MDL_REG_INT_CFG_MASK_IEN)
  else
    to_uint8 (Z.land i2cReadBuffer (Z.lnot LIS3MDL_REG_INT_CFG_MASK_IEN)).

Definition LIS3MDL_enableDisableIntPin (enableDisable : Z) : io D status_mag_t :=
  if (enableDisable >? 1) || (enableDisable <? 0) then ret STATUS_MAG_ERROR
  else
    '(st, buf) ← bus_read I2C_BUS_ADDR LIS3MDL_REG_INT_CFG NUM_OF_BYTES_1;
    if negb (status_t_eqb st STATUS_OK) then ret STATUS_BUS_ERROR
    else
      let i2cReadBuffer := nth 0 buf 0 in
      let i2cWriteBuffer := intCfg_regValue enableDisable i2cReadBuffer in
      st' ← bus_write I2C_BUS_ADDR LIS3MDL_REG_INT_CFG NUM_OF_BYTES_1
               [i2cWriteBuffer];
      if negb (status_t_eqb st' STATUS_OK) then ret STATUS_BUS_ERROR
      else ret STATUS_MAG_OK.

(** The [switch] from the axis selector to the low-byte register. *)
Definition axisRegVal_of (axisType : Z) : option Z :=
  if axisType =? LIS3MDL_AXIS_X then Some LIS3MDL_OUT_X_L_REG
  else if axisType =? LIS3MDL_AXIS_Y then Some LIS3MDL_OUT_Y_L_REG
  else if axisType =? LIS3MDL_AXIS_Z then Some LIS3MDL_OUT_Z_L_REG
  else None.

(** The 16-bit value assembled from the two bytes of the read buffer. *)
Definition axis_sample (i2cReadBuffer : list Z) : Z :=
  to_uint16 (Z.lor (Z.shiftl (nth 1 i2cReadBuffer 0) 8) (nth 0 i2cReadBuffer 0)).

Definition LIS3MDL_readAxisData (axisType : Z) (axisData : ptr)
  : io D (status_mag_t * ptr) :=
  match axisData with
  | NULL => ret (STATUS_MAG_ERROR, NULL)
  | Ref _ =>
      match axisRegVal_of axisType with
      | None => ret (STATUS_MAG_ERROR, axisData)
      | Some axisRegVal =>
          '(st, i2cReadBuffer) ←
            bus_read I2C_BUS_ADDR axisRegVal NUM_OF_BYTES_2;
          if negb (status_t_eqb st STATUS_OK) then ret (STATUS_BUS_ERROR, axisData)
          else ret (STATUS_MAG_OK, Ref (axis_sample i2cReadBuffer))
      end
  end.

(** The driver instance [magDriver]: a table with one entry per operation.
    A call names the entry and carries its arguments; the outcome is the
    status together with the output parameter after the call, if the entry
    has one. *)
Inductive driver_call : Type :=
| GetFullScaleConfig (pFullScaleRange : ptr)
| SetOutputDataRate (omValue0 dataRate : Z)
| GetOutputDataRate (dataRate : ptr)
| EnableDisableIntPin (enableDisable : Z)
| ReadAxisData (axisType : Z) (axisData : ptr).

Definition out_param (c : driver_call) : option ptr :=
  match c with
  | GetFullScaleConfig p | GetOutputDataRate p | ReadAxisData _ p => Some p
  | SetOutputDataRate _ _ | EnableDisableIntPin _ => None
  end.

Definition with_out (m : io D (status_mag_t * ptr))
  : io D (status_mag_t * option ptr) :=
  fun d => let '((st, p), d', t) := m d in ((st, Some p), d', t).

Definition without_out (m : io D status_mag_t)
  : io D (status_mag_t * option ptr) :=
  fun d => let '(st, d', t) := m d in ((st, None), d', t).

Definition magDriver (c : driver_call) : io D (status_mag_t * option ptr) :=
  match c with
  | GetFullScaleConfig p => with_out (LIS3MDL_getFullScaleConfig p)
  | SetOutputDataRate omValue0 dataRate =>
      without_out (LIS3MDL_setOutputDataRate omValue0 dataRate)
  | GetOutputDataRate p => with_out (LIS3MDL_getOutputDataRate p)
  | EnableDisableIntPin enableDisable =>
      without_out (LIS3MDL_enableDisableIntPin enableDisable)
  | ReadAxisData axisType p => with_out (LIS3MDL_readAxisData axisType p)
  end.

End Driver.

(** Modelled from the spec: the contract the absent transport owes the
    driver.  The buffer handed to [i2c_read] is an array of [uint8_t], so
    whatever the call leaves in it are bytes. *)
Class TransportOk (D : Type) `{Transport D} : Prop := {
  i2c_read_bytes :
    forall addr reg len d, Forall uint8 (i2c_read addr reg len d).1.2
}.

(** ** A register-file device with fault injection *)

(** Modelled from the spec: a transport for one device whose registers are a
    finite map from register address to byte, absent registers reading as 0.
    A multi-byte access walks consecutive addresses, low address first.  The
    list [faults] scripts the outcome of the coming accesses, one entry per
    access ([true]: this access fails and leaves the registers alone); once it
    is used up every access succeeds. *)
Record regfile : Type := RegFile {
  regs : gmap Z Z;
  faults : list bool
}.

Definition reg_get (m : gmap Z Z) (reg : Z) : Z := to_uint8 (default 0 (m !! reg)).

Fixpoint read_bytes (m : gmap Z Z) (reg : Z) (n : nat) : list Z :=
  match n with
  | O => []
  | S k => reg_get m reg :: read_bytes m (reg + 1) k
  end.

Fixpoint write_bytes (m : gmap Z Z) (reg : Z) (data : list Z) : gmap Z Z :=
  match data with
  | [] => m
  | b :: bs => write_bytes (<[reg := to_uint8 b]> m) (reg + 1) bs
  end.

Definition next_fault (f : list bool) : bool * list bool :=
  match f with
  | [] => (false, [])
  | b :: f' => (b, f')
  end.

Definition regfile_read (addr reg len : Z) (d : regfile)
  : status_t * list Z * regfile :=
  let '(fault, rest) := next_fault (faults d) in
  if fault then (STATUS_ERROR, repeat 0 (Z.to_nat len), RegFile (regs d) rest)
  else (STATUS_OK, read_bytes (regs d) reg (Z.to_nat len), RegFile (regs d) rest).

Definition regfile_write (addr reg len : Z) (data : list Z) (d : regfile)
  : status_t * regfile :=
  let '(fault, rest) := next_fault (faults d) in
  if fault then (STATUS_ERROR, RegFile (regs d) rest)
  else (STATUS_OK,
        RegFile (write_bytes (regs d) reg (firstn (Z.to_nat len) data)) rest).

#[global] Instance regfile_transport : Transport regfile := {|
  i2c_read := regfile_read;
  i2c_write := regfile_write
|}.

(** A device with the given register contents and no fault pending. *)
Definition healthy (l : list (Z * Z)) : regfile := RegFile (list_to_map l) [].

(** A device on which the next access fails. *)
Definition broken (l : list (Z * Z)) : regfile := RegFile (list_to_map l) [true].

(** [t] contains a failed access. *)
Definition some_failed (t : list bus_event) : bool := existsb failed t.

(** [t] contains a write. *)
Definition some_write (t : list bus_event) : bool := existsb is_write t.

(** ** Vocabulary of the properties *)

Definition is_null (p : ptr) : bool :=
  match p with
  | NULL => true
  | Ref _ => false
  end.

(** The inputs that violate a cheap precondition: a null output pointer, a
    rate code outside the twelve defined ones, an enable flag other than 0
    and 1, an axis selector other than the three axes. *)
Definition invalid_input (c : driver_call) : bool :=
  match c with
  | GetFullScaleConfig p | GetOutputDataRate p => is_null p
  | SetOutputDataRate _ dataRate =>
      (dataRate <? DATARATE_0_625_Hz) || (DATARATE_1000_Hz <? dataRate)
  | EnableDisableIntPin enableDisable =>
      negb ((enableDisable =? 0) || (enableDisable =? 1))
  | ReadAxisData axisType p =>
      is_null p ||
      negb ((axisType =? LIS3MDL_AXIS_X) || (axisType =? LIS3MDL_AXIS_Y) ||
            (axisType =? LIS3MDL_AXIS_Z))
  end.

(** The bytes, for checks that run over all of them. *)
Definition all_bytes : list Z := map Z.of_nat (seq 0 256).

(** Whether a byte with the fast-ODR flag set decodes to a fast rate. *)
Definition decodes_fast (b : Z) : bool :=
  if Z.testbit b REG_CTRL_REG1_BIT_POS_FAST_ORD then
    match dataRate_decode b with
    | Some rate => (DATARATE_155_Hz <=? rate) && (rate <=? DATARATE_1000_Hz)
    | None => false
    end
  else true.

(** Whether a byte decodes at all. *)
Definition decodes (b : Z) : bool :=
  match dataRate_decode b with
  | Some _ => true
  | None => false
  end.

(** ** test.c and main.c *)

Definition status_mag_t_eqb (a b : status_mag_t) : bool :=
  match a, b with
  | STATUS_MAG_OK, STATUS_MAG_OK
  | STATUS_MAG_ERROR, STATUS_MAG_ERROR
  | STATUS_BUS_ERROR, STATUS_BUS_ERROR => true
  | _, _ => false
  end.

(** The caller's variable after a call that was handed its address: the
    value stored through the pointer, or the old value [old] when the call
    came back with nothing stored. *)
Definition cell_of (p : option ptr) (old : Z) : Z :=
  match p with
  | Some (Ref v) => v
  | Some NULL | None => old
  end.

(** The indeterminate values that automatic variables declared without
    initialiser start with: the locals of the test functions whose address
    is handed to the driver, and [omValue] of [LIS3MDL_setOutputDataRate]. *)
Record uninit : Type := Uninit {
  scale0 : Z;
  omValue_0 : Z;
  output_data_rate0 : Z;
  bus_error_output_data_rate0 : Z;
  x_axis_data0 : Z;
  y_axis_data0 : Z;
  z_axis_data0 : Z
}.

Section Tests.

Context {D : Type} `{Transport D}.

(** Each test function is embedded with its calls to the driver table and
    its two counters; its value is the pair [(num_tests, num_passed)] that
    the closing [printf] reports.  The text printed carries no state and is
    left out. *)
Definition test_GetFullScaleConfig (u : uninit) : io D (Z * Z) :=
  let num_tests := 0 in
  let num_passed := 0 in
  let scale := scale0 u in
  '(status, p) ← magDriver (GetFullScaleConfig (Ref scale));
  let scale := cell_of p scale in
  let num_tests := num_tests + 1 in
  let num_passed :=
    if status_mag_t_eqb status STATUS_MAG_OK && ((scale >=? 0) && (scale <=? 3))
    then num_passed + 1 else num_passed in
  '(status, _) ← magDriver (GetFullScaleConfig NULL);
  let num_tests := num_tests + 1 in
  let num_passed :=
    if status_mag_t_eqb status STATUS_MAG_ERROR
    then num_passed + 1 else num_passed in
  '(status, p) ← magDriver (GetFullScaleConfig (Ref scale));
  let num_tests := num_tests + 1 in
  let num_passed :=
    if status_mag_t_eqb status STATUS_BUS_ERROR
    then num_passed + 1 else num_passed in
  mret (num_tests, num_passed).

Definition test_SetOutputDataRate (u : uninit) : io D (Z * Z) :=
  let num_tests := 0 in
  let num_passed := 0 in
  let valid_output_data_rate := DATARATE_5_Hz in
  '(status, _) ← magDriver (SetOutputDataRate (omValue_0 u) valid_output_data_rate);
  let num_tests := num_tests + 1 in
  let num_passed :=
    if status_mag_t_eqb status STATUS_MAG_OK
    then num_passed + 1 else num_passed in
  let invalid_output_data_rate := 15 in
  '(status, _) ← magDriver (SetOutputDataRate (omValue_0 u) invalid_output_data_rate);
  let num_tests := num_tests + 1 in
  let num_passed :=
    if status_mag_t_eqb status STATUS_MAG_ERROR
    then num_passed + 1 else num_passed in
  let fast_odr_output_data_rate := DATARATE_1000_Hz in
  '(status, _) ← magDriver (SetOutputDataRate (omValue_0 u) fast_odr_output_data_rate);
  let num_tests := num_tests + 1 in
  let num_passed :=
    if status_mag_t_eqb status STATUS_MAG_OK
    then num_passed + 1 else num_passed in
  let bus_error_output_data_rate := DATARATE_10_Hz in
  '(status, _) ← magDriver (SetOutputDataRate (omValue_0 u) bus_error_output_data_rate);
  let num_tests := num_tests + 1 in
  let num_passed :=
    if status_mag_t_eqb status STATUS_BUS_ERROR
    then num_passed + 1 else num_passed in
  mret (num_tests, num_passed).

Definition test_GetOutputDataRate (u : uninit) : io D (Z * Z) :=
  let num_tests := 0 in
  let num_passed := 0 in
  let output_data_rate := output_data_rate0 u in
  '(status, p) ← magDriver (GetOutputDataRate (Ref output_data_rate));
  let num_tests := num_tests + 1 in
  let num_passed :=
    if status_mag_t_eqb status STATUS_MAG_OK
    then num_passed + 1 else num_passed in
  (* the fast-mode sub-test is skipped, and counted *)
  let num_tests := num_tests + 1 in
  '(status, _) ← magDriver (GetOutputDataRate NULL);
  let num_tests := num_tests + 1 in
  let num_passed :=
    if status_mag_t_eqb status STATUS_MAG_ERROR
    then num_passed + 1 else num_passed in
  let bus_error_output_data_rate := bus_error_output_data_rate0 u in
  '(status, p) ← magDriver (GetOutputDataRate (Ref bus_error_output_data_rate));
  let num_tests := num_tests + 1 in
  let num_passed :=
    if status_mag_t_eqb status STATUS_BUS_ERROR
    then num_passed + 1 else num_passed in
  mret (num_tests, num_passed).

Definition test_EnableDisableIntPin : io D (Z * Z) :=
  let num_tests := 0 in
  let num_passed := 0 in
  '(status, _) ← magDriver (EnableDisableIntPin 1);
  let num_tests := num_tests + 1 in
  let num_passed :=
    if status_mag_t_eqb status STATUS_MAG_OK
    then num_passed + 1 else num_passed in
  '(status, _) ← magDriver (EnableDisableIntPin 0);
  let num_tests := num_tests + 1 in
  let num_passed :=
    if status_mag_t_eqb status STATUS_MAG_OK
    then num_passed + 1 else num_passed in
  '(status, _) ← magDriver (EnableDisableIntPin 2);
  let num_tests := num_tests + 1 in
  let num_passed :=
    if status_mag_t_eqb status STATUS_MAG_ERROR
    then num_passed + 1 else num_passed in
  '(status, _) ← magDriver (EnableDisableIntPin 0);
  '(status, _) ← magDriver (EnableDisableIntPin 1);
  let num_tests := num_tests + 2 in
  let num_passed :=
    if status_mag_t_eqb status STATUS_MAG_OK
    then num_passed + 2 else num_passed in
  mret (num_tests, num_passed).

Definition test_ReadAxisData (u : uninit) : io D (Z * Z) :=
  let num_tests := 0 in
  let num_passed := 0 in
  let x_axis_data := x_axis_data0 u in
  '(status, p) ← magDriver (ReadAxisData LIS3MDL_AXIS_X (Ref x_axis_data));
  let x_axis_data := cell_of p x_axis_data in
  let num_tests := num_tests + 1 in
  let num_passed :=
    if status_mag_t_eqb status STATUS_MAG_OK
    then num_passed + 1 else num_passed in
  let y_axis_data := y_axis_data0 u in
  '(status, p) ← magDriver (ReadAxisData LIS3MDL_AXIS_Y (Ref y_axis_data));
  let num_tests := num_tests + 1 in
  let num_passed :=
    if status_mag_t_eqb status STATUS_MAG_OK
    then num_passed + 1 else num_passed in
  let z_axis_data := z_axis_data0 u in
  '(status, p) ← magDriver (ReadAxisData LIS3MDL_AXIS_Z (Ref z_axis_data));
  let num_tests := num_tests + 1 in
  let num_passed :=
    if status_mag_t_eqb status STATUS_MAG_OK
    then num_passed + 1 else num_passed in
  '(status, p) ← magDriver (ReadAxisData 3 (Ref x_axis_data));
  let num_tests := num_tests + 1 in
  let num_passed :=
    if status_mag_t_eqb status STATUS_MAG_ERROR
    then num_passed + 1 else num_passed in
  '(status, _) ← magDriver (ReadAxisData LIS3MDL_AXIS_X NULL);
  let num_tests := num_tests + 1 in
  let num_passed :=
    if status_mag_t_eqb status STATUS_MAG_ERROR
    then num_passed + 1 else num_passed in
  mret (num_tests, num_passed).

(** [main] runs the five tests in order and returns 0. *)
Definition main (u : uninit) : io D Z :=
  _ ← test_GetFullScaleConfig u;
  _ ← test_SetOutputDataRate u;
  _ ← test_GetOutputDataRate u;
  _ ← test_EnableDisableIntPin;
  _ ← test_ReadAxisData u;
  mret 0.

End Tests.

(** ** Further vocabulary *)

(** The accesses the driver is written to make: all of them to the device at
    [I2C_BUS_ADDR]; one-byte reads of the two control registers and of the
    interrupt configuration, two-byte reads at the low register of an axis;
    writes of a single byte to control register 1 or to the interrupt
    configuration. *)
Definition driver_access (e : bus_event) : bool :=
  match e.1 with
  | I2C_READ addr reg len =>
      (addr =? I2C_BUS_ADDR) &&
      (((len =? NUM_OF_BYTES_1) &&
        ((reg =? REG_CTRL_REG_1) || (reg =? REG_CTRL_REG_2) ||
         (reg =? LIS3MDL_REG_INT_CFG))) ||
       ((len =? NUM_OF_BYTES_2) &&
        ((reg =? LIS3MDL_OUT_X_L_REG) || (reg =? LIS3MDL_OUT_Y_L_REG) ||
         (reg =? LIS3MDL_OUT_Z_L_REG))))
  | I2C_WRITE addr reg len data =>
      (addr =? I2C_BUS_ADDR) && (len =? NUM_OF_BYTES_1) &&
      ((reg =? REG_CTRL_REG_1) || (reg =? LIS3MDL_REG_INT_CFG)) &&
      match data with
      | [w] => (0 <=? w) && (w <? 256)
      | _ => false
      end
  end.

(** The traces of a single operation: nothing, one read, or a successful
    one-byte read followed by a write to the register just read. *)
Definition read_modify_write (t : list bus_event) : bool :=
  match t with
  | [] => true
  | [(I2C_READ _ _ _, _)] => true
  | [(I2C_READ addr reg len, STATUS_OK); (I2C_WRITE addr' reg' len' _, _)] =>
      (addr =? addr') && (reg =? reg') && (len =? len')
  | _ => false
  end.

(** Whether the bits already in control register 1 ([cur]) leave the code of
    [dataRate] readable once the new bits are OR-ed in: for a normal rate the
    fast-ODR flag is clear and the old rate field has no bit the new code
    lacks; for a fast rate the old mode field has no bit the new mode lacks. *)
Definition stale_bits_covered (dataRate cur : Z) : bool :=
  if dataRate <=? DATARATE_80_Hz then
    negb (Z.testbit cur REG_CTRL_REG1_BIT_POS_FAST_ORD) &&
    (Z.lor dataRate
       (GET_BIT cur REG_CTRL_REG1_BIT_MASK_D02_DO1_DO0
          REG_CTRL_REG1_BIT_POS_D02_DO1_DO0) =? dataRate)
  else
    let omValue := omValue_of_dataRate 0 dataRate in
    Z.lor omValue
      (GET_BIT cur REG_CTRL_REG1_BIT_MASK_OM1_OM0
         REG_CTRL_REG1_BIT_POS_OM1_OM0) =? omValue.

(** The status a call comes back with, from whether its input is valid and
    whether an access to the bus failed. *)
Definition expected_status (invalid bus_failed : bool) : status_mag_t :=
  if bus_failed then STATUS_BUS_ERROR
  else if invalid then STATUS_MAG_ERROR
  else STATUS_MAG_OK.

(** The ways a call through the driver table can go, as status, output
    parameter and trace: rejected before any access; stopped at a failed
    read; answered from one good read; rejected after one good read; a good
    read followed by a write. *)
Inductive outcome (c : driver_call)
  : status_mag_t * option ptr -> list bus_event -> Prop :=
| Rejected :
    invalid_input c = true ->
    outcome c (STATUS_MAG_ERROR, out_param c) []
| ReadFailed (e : bus_event) :
    is_write e = false -> failed e = true -> driver_access e = true ->
    outcome c (STATUS_BUS_ERROR, out_param c) [e]
| Answered (e : bus_event) (v : Z) :
    invalid_input c = false -> out_param c <> None ->
    is_write e = false -> failed e = false -> driver_access e = true ->
    outcome c (STATUS_MAG_OK, Some (Ref v)) [e]
| RejectedAfterRead (e : bus_event) :
    invalid_input c = true -> out_param c = None ->
    is_write e = false -> failed e = false -> driver_access e = true ->
    outcome c (STATUS_MAG_ERROR, out_param c) [e]
| Written (reg w : Z) (st : status_t) :
    invalid_input c = false -> out_param c = None ->
    driver_access (I2C_READ I2C_BUS_ADDR reg NUM_OF_BYTES_1, STATUS_OK) = true ->
    driver_access (I2C_WRITE I2C_BUS_ADDR reg NUM_OF_BYTES_1 [w], st) = true ->
    outcome c
      (expected_status false (status_t_nonzero st), out_param c)
      [(I2C_READ I2C_BUS_ADDR reg NUM_OF_BYTES_1, STATUS_OK);
       (I2C_WRITE I2C_BUS_ADDR reg NUM_OF_BYTES_1 [w], st)].

(** A program all of whose accesses to the bus are accesses the driver is
    written to make. *)
Definition keeps_discipline {D A : Type} (m : io D A) : Prop :=
  forall d, forallb driver_access (trace (m d)) = true.

(** * Properties *)

(** ** Bytes *)

Lemma to_uint8_land (x : Z) : to_uint8 x = Z.land x 255.
Proof.
  unfold to_uint8. change 256 with (2 ^ 8). change 255 with (Z.ones 8).
  symmetry. apply Z.land_ones. lia.
Qed.

Lemma to_uint8_id (x : Z) : uint8 x -> to_uint8 x = x.
Proof. unfold uint8, to_uint8. intros Hx. now apply Z.mod_small. Qed.

Lemma to_uint8_uint8 (x : Z) : uint8 (to_uint8 x).
Proof. unfold uint8, to_uint8. apply Z.mod_pos_bound. lia. Qed.

Lemma uint8_land_255 (x : Z) : uint8 x <-> Z.land x 255 = x.
Proof.
  rewrite <- to_uint8_land. split.
  - apply to_uint8_id.
  - intros <-. apply to_uint8_uint8.
Qed.

Lemma uint8_lor (a b : Z) : uint8 a -> uint8 b -> uint8 (Z.lor a b).
Proof.
  rewrite !uint8_land_255. intros Ha Hb.
  now rewrite Z.land_lor_distr_l, Ha, Hb.
Qed.

Lemma uint8_land_l (a m : Z) : uint8 a -> uint8 (Z.land a m).
Proof.
  rewrite !uint8_land_255. intros Ha.
  now rewrite <- Z.land_assoc, (Z.land_comm m), Z.land_assoc, Ha.
Qed.

Lemma uint8_nth (buf : list Z) (i : nat) : Forall uint8 buf -> uint8 (nth i buf 0).
Proof.
  intros Hbuf. revert i.
  induction Hbuf as [|b buf Hb _ IH]; intros [|i]; simpl; auto; unfold uint8; lia.
Qed.

(** A field insertion only produces bits of its mask. *)
Lemma SET_BIT_within (data mask pos : Z) :
  Z.land (SET_BIT data mask pos) mask = SET_BIT data mask pos.
Proof. unfold SET_BIT. now rewrite <- Z.land_assoc, Z.land_diag. Qed.

(** A field extraction does not see bits outside its mask. *)
Lemma GET_BIT_lor_outside (x y mask pos : Z) :
  Z.land y mask = 0 -> GET_BIT (Z.lor x y) mask pos = GET_BIT x mask pos.
Proof.
  intros Hy. unfold GET_BIT.
  now rewrite Z.land_lor_distr_l, Hy, Z.lor_0_r.
Qed.

Lemma land_submask (y fields mask : Z) :
  Z.land mask fields = mask -> Z.land y fields = 0 -> Z.land y mask = 0.
Proof.
  intros Hm Hy. rewrite <- Hm, Z.land_assoc, (Z.land_comm y mask).
  now rewrite <- Z.land_assoc, Hy, Z.land_0_r.
Qed.

(** A value below a mask has no bit where the mask has none. *)
Lemma testbit_within (e mask i : Z) :
  Z.land e mask = e -> Z.testbit mask i = false -> Z.testbit e i = false.
Proof.
  intros He Hm. rewrite <- He, Z.land_spec, Hm. apply andb_false_r.
Qed.

(** ** The data-rate codec *)

Lemma valid_dataRate_cases (dataRate : Z) :
  DATARATE_0_625_Hz <= dataRate <= DATARATE_1000_Hz ->
  In dataRate [0; 1; 2; 3; 4; 5; 6; 7; 8; 9; 10; 11].
Proof.
  unfold DATARATE_0_625_Hz, DATARATE_1000_Hz. intros Hr. simpl.
  assert (dataRate = 0 \/ dataRate = 1 \/ dataRate = 2 \/ dataRate = 3 \/
          dataRate = 4 \/ dataRate = 5 \/ dataRate = 6 \/ dataRate = 7 \/
          dataRate = 8 \/ dataRate = 9 \/ dataRate = 10 \/ dataRate = 11) by lia.
  intuition auto.
Qed.

(** The bits encoded for each of the twelve rates: a byte inside the three
    rate fields that decodes to the rate it was made from. *)
Lemma dataRate_bits_valid (omValue0 dataRate : Z) :
  DATARATE_0_625_Hz <= dataRate <= DATARATE_1000_Hz ->
  exists e, dataRate_bits omValue0 dataRate = Some e /\ uint8 e /\
            Z.land e CTRL_REG1_RATE_FIELDS = e /\
            dataRate_decode e = Some dataRate.
Proof.
  intros Hr. apply valid_dataRate_cases in Hr. simpl in Hr.
  repeat (destruct Hr as [<- | Hr]; [
    eexists; split; [vm_compute; reflexivity |];
    repeat split; unfold uint8; try lia; reflexivity |]).
  contradiction.
Qed.

Lemma dataRate_bits_invalid (omValue0 dataRate : Z) :
  dataRate < DATARATE_0_625_Hz \/ DATARATE_1000_Hz < dataRate ->
  dataRate_bits omValue0 dataRate = None.
Proof.
  unfold dataRate_bits, DATARATE_0_625_Hz, DATARATE_80_Hz, DATARATE_1000_Hz.
  intros Hr.
  destruct (dataRate >=? 0) eqn:E1, (dataRate <=? 7) eqn:E2,
    (dataRate >? 7) eqn:E3, (dataRate <=? 11) eqn:E4; simpl; try reflexivity; lia.
Qed.

(** Stale bits outside the three rate fields do not disturb decoding. *)
Lemma dataRate_decode_lor_outside (e cur : Z) :
  Z.land cur CTRL_REG1_RATE_FIELDS = 0 ->
  dataRate_decode (Z.lor e cur) = dataRate_decode e.
Proof.
  intros Hcur. unfold dataRate_decode.
  rewrite !(GET_BIT_lor_outside e cur)
    by (eapply land_submask; [|exact Hcur]; reflexivity).
  reflexivity.
Qed.

(** The byte written back is the previous byte with the new bits OR-ed in. *)
Lemma dataRate_regValue_valid (omValue0 dataRate cur : Z) :
  DATARATE_0_625_Hz <= dataRate <= DATARATE_1000_Hz -> uint8 cur ->
  exists e, dataRate_bits omValue0 dataRate = Some e /\ uint8 e /\
            Z.land e CTRL_REG1_RATE_FIELDS = e /\
            dataRate_decode e = Some dataRate /\
            dataRate_regValue omValue0 dataRate cur = Some (Z.lor e cur).
Proof.
  intros Hr Hcur.
  destruct (dataRate_bits_valid omValue0 dataRate Hr) as (e & He & Hu & Hm & Hd).
  exists e. repeat split; try assumption; try apply Hu.
  unfold dataRate_regValue. rewrite He.
  now rewrite to_uint8_id by (apply uint8_lor; assumption).
Qed.

(** ** The interrupt-enable bit *)

Lemma intCfg_regValue_enable (b : Z) :
  uint8 b -> intCfg_regValue 1 b = Z.lor b LIS3MDL_REG_INT_CFG_MASK_IEN.
Proof.
  intros Hb. unfold intCfg_regValue. simpl.
  apply to_uint8_id, uint8_lor; [assumption |].
  unfold uint8, LIS3MDL_REG_INT_CFG_MASK_IEN. lia.
Qed.

Lemma intCfg_regValue_disable (b : Z) :
  uint8 b ->
  intCfg_regValue 0 b = Z.land b (Z.lnot LIS3MDL_REG_INT_CFG_MASK_IEN).
Proof.
  intros Hb. unfold intCfg_regValue. simpl.
  now apply to_uint8_id, uint8_land_l.
Qed.

(** Bit [i] of the mask [0x01]. *)
Lemma testbit_IEN (i : Z) :
  Z.testbit LIS3MDL_REG_INT_CFG_MASK_IEN i = (i =? 0).
Proof.
  unfold LIS3MDL_REG_INT_CFG_MASK_IEN.
  destruct (Z.eqb_spec i 0) as [-> | Hi]; [reflexivity |].
  destruct (Z.lt_ge_cases i 0) as [Hneg | Hpos].
  - now apply Z.testbit_neg_r.
  - apply Z.bits_above_log2; simpl; lia.
Qed.

(** The new register value has bit 0 as requested and every other bit as read. *)
Lemma intCfg_regValue_bits (enableDisable b i : Z) :
  enableDisable = 0 \/ enableDisable = 1 -> uint8 b ->
  Z.testbit (intCfg_regValue enableDisable b) i =
    if i =? 0 then enableDisable =? 1 else Z.testbit b i.
Proof.
  intros [-> | ->] Hb.
  - rewrite intCfg_regValue_disable by assumption.
    destruct (Z.lt_ge_cases i 0) as [Hneg | Hpos].
    + rewrite !Z.testbit_neg_r by assumption.
      destruct (Z.eqb_spec i 0); [lia | reflexivity].
    + rewrite Z.land_spec, Z.lnot_spec, testbit_IEN by assumption.
      destruct (i =? 0); simpl; [apply andb_false_r | apply andb_true_r].
  - rewrite intCfg_regValue_enable by assumption.
    rewrite Z.lor_spec, testbit_IEN.
    destruct (i =? 0); simpl; [apply orb_true_r | apply orb_false_r].
Qed.

(** ** The axis sample *)

(** A byte has no bit in common with a value shifted left by eight. *)
Lemma land_shiftl8_byte (hi lo : Z) : uint8 lo -> Z.land (Z.shiftl hi 8) lo = 0.
Proof.
  intros Hlo. apply Z.bits_inj'. intros n Hn. rewrite Z.land_spec, Z.bits_0.
  destruct (Z.lt_ge_cases n 8) as [Hlt | Hge].
  - now rewrite Z.shiftl_spec_low.
  - apply uint8_land_255 in Hlo. rewrite <- Hlo, Z.land_spec.
    change 255 with (Z.ones 8). rewrite Z.ones_spec_high by lia.
    now rewrite !andb_false_r.
Qed.

Lemma lor_shiftl8_byte (hi lo : Z) :
  uint8 lo -> Z.lor (Z.shiftl hi 8) lo = hi * 256 + lo.
Proof.
  intros Hlo. pose proof (land_shiftl8_byte hi lo Hlo) as Hdisj.
  rewrite <- Z.lxor_lor, <- Z.add_nocarry_lxor by exact Hdisj.
  now rewrite Z.shiftl_mul_pow2 by lia.
Qed.

Lemma axis_sample_bytes (lo hi : Z) :
  uint8 lo -> uint8 hi -> axis_sample [lo; hi] = Z.lor (Z.shiftl hi 8) lo.
Proof.
  intros Hlo Hhi. unfold axis_sample, to_uint16. simpl nth.
  apply Z.mod_small. rewrite lor_shiftl8_byte by assumption.
  unfold uint8 in *. lia.
Qed.

(** ** Runs of the five operations *)

Section Runs.

Context {D : Type} `{Transport D}.

Ltac run_io :=
  unfold mbind, io_bind, mret, io_ret, bind, ret, bus_read, bus_write.

Abbreviation READ reg len := (I2C_READ I2C_BUS_ADDR reg len).
Abbreviation WRITE reg len data := (I2C_WRITE I2C_BUS_ADDR reg len data).

Lemma getFullScaleConfig_run (cell : Z) (d d1 : D) (st : status_t) (buf : list Z) :
  i2c_read I2C_BUS_ADDR REG_CTRL_REG_2 NUM_OF_BYTES_1 d = (st, buf, d1) ->
  LIS3MDL_getFullScaleConfig (Ref cell) d =
    (if status_t_nonzero st then (STATUS_BUS_ERROR, Ref cell)
     else fullScale_store
            (to_uint8 (GET_BIT (nth 0 buf 0) REG_CTRL_REG2_BIT_MASK_FS1_FS0
                         REG_CTRL_REG2_BIT_POS_FS1_FS0)) (Ref cell),
     d1, [(READ REG_CTRL_REG_2 NUM_OF_BYTES_1, st)]).
Proof.
  intros Hread. unfold LIS3MDL_getFullScaleConfig. run_io. rewrite Hread.
  destruct st; reflexivity.
Qed.

Lemma setOutputDataRate_run (omValue0 dataRate : Z) (d d1 : D)
    (st : status_t) (buf : list Z) :
  i2c_read I2C_BUS_ADDR REG_CTRL_REG_1 NUM_OF_BYTES_1 d = (st, buf, d1) ->
  LIS3MDL_setOutputDataRate omValue0 dataRate d =
    match st, dataRate_regValue omValue0 dataRate (nth 0 buf 0) with
    | STATUS_ERROR, _ =>
        (STATUS_BUS_ERROR, d1, [(READ REG_CTRL_REG_1 NUM_OF_BYTES_1, st)])
    | STATUS_OK, None =>
        (STATUS_MAG_ERROR, d1, [(READ REG_CTRL_REG_1 NUM_OF_BYTES_1, st)])
    | STATUS_OK, Some w =>
        let r := i2c_write I2C_BUS_ADDR REG_CTRL_REG_1 NUM_OF_BYTES_1 [w] d1 in
        (if status_t_eqb r.1 STATUS_OK then STATUS_MAG_OK else STATUS_BUS_ERROR,
         r.2,
         [(READ REG_CTRL_REG_1 NUM_OF_BYTES_1, st);
          (WRITE REG_CTRL_REG_1 NUM_OF_BYTES_1 [w], r.1)])
    end.
Proof.
  intros Hread. unfold LIS3MDL_setOutputDataRate. run_io. rewrite Hread.
  destruct st; simpl; [| reflexivity].
  destruct (dataRate_regValue omValue0 dataRate (nth 0 buf 0)) as [w |];
    [| reflexivity].
  destruct (i2c_write I2C_BUS_ADDR REG_CTRL_REG_1 NUM_OF_BYTES_1 [w] d1)
    as [st' d2]. reflexivity.
Qed.

Lemma getOutputDataRate_run (cell : Z) (d d1 : D) (st : status_t) (buf : list Z) :
  i2c_read I2C_BUS_ADDR REG_CTRL_REG_1 NUM_OF_BYTES_1 d = (st, buf, d1) ->
  LIS3MDL_getOutputDataRate (Ref cell) d =
    (match st, dataRate_decode (nth 0 buf 0) with
     | STATUS_ERROR, _ => (STATUS_BUS_ERROR, Ref cell)
     | STATUS_OK, Some rate => (STATUS_MAG_OK, Ref rate)
     | STATUS_OK, None => (STATUS_MAG_ERROR, Ref cell)
     end,
     d1, [(READ REG_CTRL_REG_1 NUM_OF_BYTES_1, st)]).
Proof.
  intros Hread. unfold LIS3MDL_getOutputDataRate. run_io. rewrite Hread.
  destruct st; simpl; [| reflexivity].
  destruct (dataRate_decode (nth 0 buf 0)); reflexivity.
Qed.

Lemma enableDisableIntPin_run (enableDisable : Z) (d d1 : D)
    (st : status_t) (buf : list Z) :
  enableDisable = 0 \/ enableDisable = 1 ->
  i2c_read I2C_BUS_ADDR LIS3MDL_REG_INT_CFG NUM_OF_BYTES_1 d = (st, buf, d1) ->
  LIS3MDL_enableDisableIntPin enableDisable d =
    match st with
    | STATUS_ERROR =>
        (STATUS_BUS_ERROR, d1, [(READ LIS3MDL_REG_INT_CFG NUM_OF_BYTES_1, st)])
    | STATUS_OK =>
        let w := intCfg_regValue enableDisable (nth 0 buf 0) in
        let r := i2c_write I2C_BUS_ADDR LIS3MDL_REG_INT_CFG NUM_OF_BYTES_1 [w] d1 in
        (if status_t_eqb r.1 STATUS_OK then STATUS_MAG_OK else STATUS_BUS_ERROR,
         r.2,
         [(READ LIS3MDL_REG_INT_CFG NUM_OF_BYTES_1, st);
          (WRITE LIS3MDL_REG_INT_CFG NUM_OF_BYTES_1 [w], r.1)])
    end.
Proof.
  intros Hflag Hread. unfold LIS3MDL_enableDisableIntPin.
  replace ((enableDisable >? 1) || (enableDisable <? 0)) with false
    by (destruct Hflag as [-> | ->]; reflexivity).
  run_io. rewrite Hread. destruct st; simpl; [| reflexivity].
  destruct (i2c_write I2C_BUS_ADDR LIS3MDL_REG_INT_CFG NUM_OF_BYTES_1
              [intCfg_regValue enableDisable (nth 0 buf 0)] d1) as [st' d2].
  destruct st'; reflexivity.
Qed.

Lemma enableDisableIntPin_invalid (enableDisable : Z) (d : D) :
  enableDisable < 0 \/ 1 < enableDisable ->
  LIS3MDL_enableDisableIntPin enableDisable d = (STATUS_MAG_ERROR, d, []).
Proof.
  intros Hflag. unfold LIS3MDL_enableDisableIntPin.
  replace ((enableDisable >? 1) || (enableDisable <? 0)) with true; [reflexivity |].
  symmetry. apply orb_true_iff. lia.
Qed.

Lemma axisRegVal_of_invalid (axisType : Z) :
  axisType <> LIS3MDL_AXIS_X -> axisType <> LIS3MDL_AXIS_Y ->
  axisType <> LIS3MDL_AXIS_Z -> axisRegVal_of axisType = None.
Proof.
  intros Hx Hy Hz. unfold axisRegVal_of.
  now rewrite !(proj2 (Z.eqb_neq _ _)).
Qed.

Lemma readAxisData_run (axisType axisRegVal cell : Z) (d d1 : D)
    (st : status_t) (buf : list Z) :
  axisRegVal_of axisType = Some axisRegVal ->
  i2c_read I2C_BUS_ADDR axisRegVal NUM_OF_BYTES_2 d = (st, buf, d1) ->
  LIS3MDL_readAxisData axisType (Ref cell) d =
    (match st with
     | STATUS_ERROR => (STATUS_BUS_ERROR, Ref cell)
     | STATUS_OK => (STATUS_MAG_OK, Ref (axis_sample buf))
     end,
     d1, [(READ axisRegVal NUM_OF_BYTES_2, st)]).
Proof.
  intros Haxis Hread. unfold LIS3MDL_readAxisData. rewrite Haxis.
  run_io. rewrite Hread. destruct st; reflexivity.
Qed.

Lemma readAxisData_invalid (axisType : Z) (axisData : ptr) (d : D) :
  axisRegVal_of axisType = None ->
  LIS3MDL_readAxisData axisType axisData d = (STATUS_MAG_ERROR, axisData, d, []).
Proof.
  intros Haxis. unfold LIS3MDL_readAxisData. rewrite Haxis.
  destruct axisData; reflexivity.
Qed.

(** What the transport puts into a one-byte buffer is a byte. *)
Lemma read_byte_uint8 `{!TransportOk D} (addr reg len : Z) (d d1 : D)
    (st : status_t) (buf : list Z) :
  i2c_read addr reg len d = (st, buf, d1) -> uint8 (nth 0 buf 0).
Proof.
  intros Hread. apply uint8_nth.
  pose proof (i2c_read_bytes addr reg len d) as Hbytes.
  now rewrite Hread in Hbytes.
Qed.

End Runs.

(** The register file keeps the transport's contract. *)
Lemma read_bytes_uint8 (m : gmap Z Z) (n : nat) (reg : Z) :
  Forall uint8 (read_bytes m reg n).
Proof.
  revert reg. induction n as [| n IH]; intros reg; simpl; constructor.
  - apply to_uint8_uint8.
  - apply IH.
Qed.

#[global] Instance regfile_ok : TransportOk regfile.
Proof.
  constructor. intros addr reg len d. simpl. unfold regfile_read.
  destruct (next_fault (faults d)) as [[|] rest]; simpl.
  - induction (Z.to_nat len) as [| n IH]; simpl; constructor; [| exact IH].
    unfold uint8. lia.
  - apply read_bytes_uint8.
Qed.

(** ** Exhaustive checks over bytes *)

Lemma uint8_forallb (f : Z -> bool) :
  forallb f all_bytes = true -> forall b, uint8 b -> f b = true.
Proof.
  intros Hall b Hb. rewrite List.forallb_forall in Hall. apply Hall.
  unfold all_bytes. apply List.in_map_iff. exists (Z.to_nat b).
  unfold uint8 in Hb. split; [lia |]. apply List.in_seq. lia.
Qed.

Lemma dataRate_decode_fast (b : Z) :
  uint8 b -> Z.testbit b REG_CTRL_REG1_BIT_POS_FAST_ORD = true ->
  exists rate, dataRate_decode b = Some rate /\
               DATARATE_155_Hz <= rate <= DATARATE_1000_Hz.
Proof.
  intros Hb Hfast.
  pose proof (uint8_forallb decodes_fast eq_refl b Hb) as Hcheck.
  unfold decodes_fast in Hcheck. rewrite Hfast in Hcheck.
  destruct (dataRate_decode b) as [rate |]; [| discriminate].
  exists rate. split; [reflexivity |].
  apply andb_true_iff in Hcheck. lia.
Qed.

Lemma dataRate_decode_total (b : Z) : uint8 b -> dataRate_decode b <> None.
Proof.
  intros Hb Hnone.
  pose proof (uint8_forallb decodes eq_refl b Hb) as Hcheck.
  unfold decodes in Hcheck. now rewrite Hnone in Hcheck.
Qed.

Section Queries.

Context {D : Type} `{Transport D} `{!TransportOk D}.

(** C10: with the fast-ODR flag set in the byte read, the data-rate query
    returns [STATUS_MAG_OK] with one of the four fast rate codes; and no
    byte at all takes the query to its [STATUS_MAG_ERROR] branch. *)
Theorem getOutputDataRate_fast_is_total (cell : Z) (d d1 : D) (buf : list Z) :
  i2c_read I2C_BUS_ADDR REG_CTRL_REG_1 NUM_OF_BYTES_1 d = (STATUS_OK, buf, d1) ->
  Z.testbit (nth 0 buf 0) REG_CTRL_REG1_BIT_POS_FAST_ORD = true ->
  (exists rate,
     LIS3MDL_getOutputDataRate (Ref cell) d =
       (STATUS_MAG_OK, Ref rate, d1,
        [(I2C_READ I2C_BUS_ADDR REG_CTRL_REG_1 NUM_OF_BYTES_1, STATUS_OK)]) /\
     In rate [DATARATE_155_Hz; DATARATE_300_Hz; DATARATE_560_Hz;
              DATARATE_1000_Hz]) /\
  (forall (cell' : Z) (d' : D),
     (result (LIS3MDL_getOutputDataRate (Ref cell') d')).1 <> STATUS_MAG_ERROR).
Proof.
  intros Hread Hfast. split.
  - pose proof (read_byte_uint8 _ _ _ _ _ _ _ Hread) as Hbyte.
    destruct (dataRate_decode_fast _ Hbyte Hfast) as (rate & Hdec & Hrange).
    exists rate. split.
    + now rewrite (getOutputDataRate_run _ _ _ _ _ Hread), Hdec.
    + unfold DATARATE_155_Hz, DATARATE_300_Hz, DATARATE_560_Hz,
        DATARATE_1000_Hz in *. simpl.
      assert (rate = 8 \/ rate = 9 \/ rate = 10 \/ rate = 11) by lia.
      intuition auto.
  - intros cell' d'.
    destruct (i2c_read I2C_BUS_ADDR REG_CTRL_REG_1 NUM_OF_BYTES_1 d')
      as [[st' buf'] d1'] eqn:Hread'.
    rewrite (getOutputDataRate_run _ _ _ _ _ Hread').
    pose proof (dataRate_decode_total _ (read_byte_uint8 _ _ _ _ _ _ _ Hread')).
    destruct st', (dataRate_decode (nth 0 buf' 0)); simpl; congruence.
Qed.

(** C7: when control register 2 holds the code [c] of one of the four
    ranges in its bits 6:5, the full-scale query returns [STATUS_MAG_OK] and
    stores exactly [c]; and the range check turns any extracted value above
    [RANGE_16_GAUSS] into [STATUS_MAG_ERROR], leaving the output alone. *)
Theorem getFullScaleConfig_returns_code
    (c cell : Z) (d d1 : D) (buf : list Z) :
  RANGE_4_GAUSS <= c <= RANGE_16_GAUSS ->
  i2c_read I2C_BUS_ADDR REG_CTRL_REG_2 NUM_OF_BYTES_1 d = (STATUS_OK, buf, d1) ->
  Z.land (nth 0 buf 0) REG_CTRL_REG2_BIT_MASK_FS1_FS0
    = Z.shiftl c REG_CTRL_REG2_BIT_POS_FS1_FS0 ->
  LIS3MDL_getFullScaleConfig (Ref cell) d =
    (STATUS_MAG_OK, Ref c, d1,
     [(I2C_READ I2C_BUS_ADDR REG_CTRL_REG_2 NUM_OF_BYTES_1, STATUS_OK)]) /\
  (forall (fullScaleRead : Z) (p : ptr),
     RANGE_16_GAUSS < fullScaleRead ->
     fullScale_store fullScaleRead p = (STATUS_MAG_ERROR, p)).
Proof.
  unfold RANGE_4_GAUSS, RANGE_16_GAUSS. intros Hc Hread Hfield. split.
  - rewrite (getFullScaleConfig_run _ _ _ _ _ Hread). simpl status_t_nonzero.
    unfold GET_BIT. rewrite Hfield.
    unfold REG_CTRL_REG2_BIT_POS_FS1_FS0.
    rewrite Z.shiftr_shiftl_l, Z.sub_diag, Z.shiftl_0_r by lia.
    rewrite to_uint8_id by (unfold uint8; lia).
    unfold fullScale_store, RANGE_4_GAUSS, RANGE_16_GAUSS.
    destruct (Z.ltb_spec c 0), (Z.gtb_spec c 3); simpl; try lia. reflexivity.
  - intros x p Hx. unfold fullScale_store, RANGE_4_GAUSS, RANGE_16_GAUSS.
    destruct (Z.gtb_spec x 3); [| lia]. now rewrite orb_true_r.
Qed.

End Queries.

(** ** Output data rate: set and get *)

Section DataRate.

Context {D : Type} `{Transport D} `{!TransportOk D}.

(** With a valid rate and a successful read, the operation reads control
    register 1 once and writes back the byte read with the new bits OR-ed in. *)
Lemma setOutputDataRate_writes (omValue0 dataRate : Z) (d d1 : D) (buf : list Z) :
  DATARATE_0_625_Hz <= dataRate <= DATARATE_1000_Hz ->
  i2c_read I2C_BUS_ADDR REG_CTRL_REG_1 NUM_OF_BYTES_1 d = (STATUS_OK, buf, d1) ->
  exists e,
    dataRate_bits omValue0 dataRate = Some e /\
    Z.land e CTRL_REG1_RATE_FIELDS = e /\
    dataRate_decode e = Some dataRate /\
    trace (LIS3MDL_setOutputDataRate omValue0 dataRate d) =
      [(I2C_READ I2C_BUS_ADDR REG_CTRL_REG_1 NUM_OF_BYTES_1, STATUS_OK);
       (I2C_WRITE I2C_BUS_ADDR REG_CTRL_REG_1 NUM_OF_BYTES_1
          [Z.lor e (nth 0 buf 0)],
        (i2c_write I2C_BUS_ADDR REG_CTRL_REG_1 NUM_OF_BYTES_1
           [Z.lor e (nth 0 buf 0)] d1).1)].
Proof.
  intros Hrate Hread.
  pose proof (read_byte_uint8 _ _ _ _ _ _ _ Hread) as Hbyte.
  destruct (dataRate_regValue_valid omValue0 dataRate _ Hrate Hbyte)
    as (e & He & _ & Hin & Hdec & Hw).
  exists e. repeat split; try assumption.
  rewrite (setOutputDataRate_run _ _ _ _ _ _ Hread), Hw. reflexivity.
Qed.

(** C1: each of the twelve rate codes survives the round trip: the bits
    that [LIS3MDL_setOutputDataRate] encodes for the rate decode, by the
    decoding of [LIS3MDL_getOutputDataRate], to the rate itself.  On the bus:
    when the register read had its three rate fields clear, the byte the
    operation writes is one from which [LIS3MDL_getOutputDataRate] returns
    [STATUS_MAG_OK] and that rate. *)
Theorem dataRate_roundtrip (omValue0 dataRate : Z) :
  DATARATE_0_625_Hz <= dataRate <= DATARATE_1000_Hz ->
  exists e,
    dataRate_bits omValue0 dataRate = Some e /\
    dataRate_decode e = Some dataRate /\
    (forall (d d1 : D) (buf : list Z),
       i2c_read I2C_BUS_ADDR REG_CTRL_REG_1 NUM_OF_BYTES_1 d
         = (STATUS_OK, buf, d1) ->
       Z.land (nth 0 buf 0) CTRL_REG1_RATE_FIELDS = 0 ->
       exists w st,
         trace (LIS3MDL_setOutputDataRate omValue0 dataRate d) =
           [(I2C_READ I2C_BUS_ADDR REG_CTRL_REG_1 NUM_OF_BYTES_1, STATUS_OK);
            (I2C_WRITE I2C_BUS_ADDR REG_CTRL_REG_1 NUM_OF_BYTES_1 [w], st)] /\
         (forall (d' d1' : D) (buf' : list Z) (cell : Z),
            i2c_read I2C_BUS_ADDR REG_CTRL_REG_1 NUM_OF_BYTES_1 d'
              = (STATUS_OK, buf', d1') ->
            nth 0 buf' 0 = w ->
            result (LIS3MDL_getOutputDataRate (Ref cell) d')
              = (STATUS_MAG_OK, Ref dataRate))).
Proof.
  intros Hrate.
  destruct (dataRate_bits_valid omValue0 dataRate Hrate)
    as (e & He & _ & _ & Hdec).
  exists e. repeat split; [exact He | exact Hdec |].
  intros d d1 buf Hread Hclear.
  destruct (setOutputDataRate_writes omValue0 dataRate d d1 buf Hrate Hread)
    as (e' & He' & _ & _ & Htrace).
  assert (e' = e) as -> by congruence.
  exists (Z.lor e (nth 0 buf 0)). eexists. split; [exact Htrace |].
  intros d' d1' buf' cell Hread' Hbyte.
  rewrite (getOutputDataRate_run _ _ _ _ _ Hread'), Hbyte.
  now rewrite dataRate_decode_lor_outside, Hdec.
Qed.

(** C2: the byte written back agrees with the byte read on every bit
    outside the rate field, the fast-ODR flag and the mode field. *)
Theorem setOutputDataRate_preserves_unrelated_bits
    (omValue0 dataRate : Z) (d d1 : D) (buf : list Z) :
  DATARATE_0_625_Hz <= dataRate <= DATARATE_1000_Hz ->
  i2c_read I2C_BUS_ADDR REG_CTRL_REG_1 NUM_OF_BYTES_1 d = (STATUS_OK, buf, d1) ->
  exists w st,
    trace (LIS3MDL_setOutputDataRate omValue0 dataRate d) =
      [(I2C_READ I2C_BUS_ADDR REG_CTRL_REG_1 NUM_OF_BYTES_1, STATUS_OK);
       (I2C_WRITE I2C_BUS_ADDR REG_CTRL_REG_1 NUM_OF_BYTES_1 [w], st)] /\
    forall i, Z.testbit CTRL_REG1_RATE_FIELDS i = false ->
              Z.testbit w i = Z.testbit (nth 0 buf 0) i.
Proof.
  intros Hrate Hread.
  destruct (setOutputDataRate_writes omValue0 dataRate d d1 buf Hrate Hread)
    as (e & _ & Hin & _ & Htrace).
  exists (Z.lor e (nth 0 buf 0)). eexists. split; [exact Htrace |].
  intros i Hi. rewrite Z.lor_spec.
  now rewrite (testbit_within e CTRL_REG1_RATE_FIELDS i Hin Hi).
Qed.

(** C9: the byte written back is the byte read OR the newly encoded bits,
    so every bit that was set in the register stays set. *)
Theorem setOutputDataRate_only_sets_bits
    (omValue0 dataRate : Z) (d d1 : D) (buf : list Z) :
  DATARATE_0_625_Hz <= dataRate <= DATARATE_1000_Hz ->
  i2c_read I2C_BUS_ADDR REG_CTRL_REG_1 NUM_OF_BYTES_1 d = (STATUS_OK, buf, d1) ->
  exists e w st,
    dataRate_bits omValue0 dataRate = Some e /\
    trace (LIS3MDL_setOutputDataRate omValue0 dataRate d) =
      [(I2C_READ I2C_BUS_ADDR REG_CTRL_REG_1 NUM_OF_BYTES_1, STATUS_OK);
       (I2C_WRITE I2C_BUS_ADDR REG_CTRL_REG_1 NUM_OF_BYTES_1 [w], st)] /\
    w = Z.lor (nth 0 buf 0) e /\
    forall i, Z.testbit (nth 0 buf 0) i = true -> Z.testbit w i = true.
Proof.
  intros Hrate Hread.
  destruct (setOutputDataRate_writes omValue0 dataRate d d1 buf Hrate Hread)
    as (e & He & _ & _ & Htrace).
  exists e, (Z.lor (nth 0 buf 0) e). eexists.
  repeat split; [exact He | rewrite Z.lor_comm; exact Htrace |].
  intros i Hi. now rewrite Z.lor_spec, Hi.
Qed.

End DataRate.

Section Validation.

Context {D : Type} `{Transport D} `{!TransportOk D}.

(** C3 (amended): an input that violates a cheap precondition is rejected
    with [STATUS_MAG_ERROR] before any bus access by four of the operations
    (null output pointer, enable flag other than 0 and 1, axis selector other
    than the three axes).  [LIS3MDL_setOutputDataRate] checks its rate code
    after reading control register 1: for a code outside the twelve it makes
    that one read and no write, and returns [STATUS_MAG_ERROR] when the read
    succeeded and [STATUS_BUS_ERROR] when it failed. *)
Theorem invalid_input_is_rejected (c : driver_call) (d : D) :
  invalid_input c = true ->
  match c with
  | SetOutputDataRate _ _ =>
      exists st buf d1,
        i2c_read I2C_BUS_ADDR REG_CTRL_REG_1 NUM_OF_BYTES_1 d = (st, buf, d1) /\
        magDriver c d =
          ((if status_t_nonzero st then STATUS_BUS_ERROR else STATUS_MAG_ERROR,
            None),
           d1, [(I2C_READ I2C_BUS_ADDR REG_CTRL_REG_1 NUM_OF_BYTES_1, st)])
  | _ => magDriver c d = ((STATUS_MAG_ERROR, out_param c), d, [])
  end.
Proof.
  destruct c as [p | omValue0 dataRate | p | enableDisable | axisType p];
    simpl invalid_input; intros Hinv.
  - destruct p; [reflexivity | discriminate].
  - destruct (i2c_read I2C_BUS_ADDR REG_CTRL_REG_1 NUM_OF_BYTES_1 d)
      as [[st buf] d1] eqn:Hread.
    exists st, buf, d1. split; [reflexivity |].
    cbn [magDriver]. unfold without_out.
    rewrite (setOutputDataRate_run _ _ _ _ _ _ Hread).
    unfold dataRate_regValue. rewrite dataRate_bits_invalid.
    + destruct st; reflexivity.
    + apply orb_true_iff in Hinv. lia.
  - destruct p; [reflexivity | discriminate].
  - cbn [magDriver out_param]. unfold without_out.
    rewrite enableDisableIntPin_invalid; [reflexivity |].
    apply negb_true_iff, orb_false_iff in Hinv. lia.
  - destruct p as [| cell]; [reflexivity |].
    simpl in Hinv. apply negb_true_iff in Hinv.
    apply orb_false_iff in Hinv as [Hinv Hz].
    apply orb_false_iff in Hinv as [Hx Hy].
    cbn [magDriver out_param]. unfold with_out.
    rewrite readAxisData_invalid; [reflexivity |].
    apply axisRegVal_of_invalid; lia.
Qed.

(** The operation stopped at a failed read, its only access. *)
Ltac only_failed_read :=
  intros _; split; [reflexivity |]; split;
  [ eexists [], _; now repeat split
  | intros e t [= <- <-] _; reflexivity ].

(** The operation stopped at a failed write that followed a good read. *)
Ltac failed_write :=
  intros _; split; [reflexivity |]; split;
  [ eexists [_], _; now repeat split
  | intros e t [= <- <-]; discriminate ].

(** C8: whenever an access to the bus fails during one of the five
    operations, the operation returns [STATUS_BUS_ERROR], leaves its output
    parameter as it was, and the failed access is its last one, preceded by
    no write; when the first access (the read) fails it is the only one. *)
Theorem bus_failure_is_reported (c : driver_call) (d : D) :
  some_failed (trace (magDriver c d)) = true ->
  result (magDriver c d) = (STATUS_BUS_ERROR, out_param c) /\
  (exists t0 e,
     trace (magDriver c d) = t0 ++ [e] /\ failed e = true /\
     some_failed t0 = false /\ some_write t0 = false) /\
  (forall e t, trace (magDriver c d) = e :: t -> failed e = true -> t = []).
Proof.
  destruct c as [p | omValue0 dataRate | p | enableDisable | axisType p];
    cbn [magDriver out_param].
  - destruct p as [| cell]; [discriminate |]. unfold with_out.
    destruct (i2c_read I2C_BUS_ADDR REG_CTRL_REG_2 NUM_OF_BYTES_1 d)
      as [[st buf] d1] eqn:Hread.
    rewrite (getFullScaleConfig_run _ _ _ _ _ Hread).
    destruct st; simpl status_t_nonzero; cbv iota; [| only_failed_read].
    destruct (fullScale_store _ _); discriminate.
  - unfold without_out.
    destruct (i2c_read I2C_BUS_ADDR REG_CTRL_REG_1 NUM_OF_BYTES_1 d)
      as [[st buf] d1] eqn:Hread.
    rewrite (setOutputDataRate_run _ _ _ _ _ _ Hread).
    destruct st; [| only_failed_read].
    destruct (dataRate_regValue omValue0 dataRate (nth 0 buf 0)) as [w |];
      [| discriminate].
    destruct (i2c_write I2C_BUS_ADDR REG_CTRL_REG_1 NUM_OF_BYTES_1 [w] d1)
      as [[|] d2]; [discriminate | failed_write].
  - destruct p as [| cell]; [discriminate |]. unfold with_out.
    destruct (i2c_read I2C_BUS_ADDR REG_CTRL_REG_1 NUM_OF_BYTES_1 d)
      as [[st buf] d1] eqn:Hread.
    rewrite (getOutputDataRate_run _ _ _ _ _ Hread).
    destruct st; [| only_failed_read].
    destruct (dataRate_decode (nth 0 buf 0)); discriminate.
  - unfold without_out.
    destruct (Z.eq_dec enableDisable 0) as [He0 | He0];
      [| destruct (Z.eq_dec enableDisable 1) as [He1 | He1]].
    3: { rewrite enableDisableIntPin_invalid by lia. discriminate. }
    all: destruct (i2c_read I2C_BUS_ADDR LIS3MDL_REG_INT_CFG NUM_OF_BYTES_1 d)
           as [[st buf] d1] eqn:Hread;
         rewrite (enableDisableIntPin_run enableDisable _ _ _ _
                    ltac:(lia) Hread);
         cbv zeta; destruct st; [| only_failed_read];
         destruct (i2c_write I2C_BUS_ADDR LIS3MDL_REG_INT_CFG NUM_OF_BYTES_1
                     [intCfg_regValue enableDisable (nth 0 buf 0)] d1)
           as [[|] d2]; [discriminate | failed_write].
  - destruct p as [| cell]; [discriminate |]. unfold with_out.
    destruct (axisRegVal_of axisType) as [axisRegVal |] eqn:Haxis.
    + destruct (i2c_read I2C_BUS_ADDR axisRegVal NUM_OF_BYTES_2 d)
        as [[st buf] d1] eqn:Hread.
      rewrite (readAxisData_run _ _ _ _ _ _ _ Haxis Hread).
      destruct st; [discriminate | only_failed_read].
    + rewrite readAxisData_invalid by assumption. discriminate.
Qed.

End Validation.

Section Registers.

Context {D : Type} `{Transport D} `{!TransportOk D}.

(** C6: with a valid flag the operation writes back the byte it read with
    bit 0 (IEN) set for 1 and cleared for 0, and every other bit as read.
    Across a call with 1 and a following call with 0 that reads back the
    byte the first call wrote, every bit other than bit 0 of the byte
    written last is still the one first read. *)
Theorem enableDisableIntPin_changes_only_IEN
    (enableDisable : Z) (d d1 : D) (buf : list Z) :
  enableDisable = 0 \/ enableDisable = 1 ->
  i2c_read I2C_BUS_ADDR LIS3MDL_REG_INT_CFG NUM_OF_BYTES_1 d
    = (STATUS_OK, buf, d1) ->
  (exists w st,
     trace (LIS3MDL_enableDisableIntPin enableDisable d) =
       [(I2C_READ I2C_BUS_ADDR LIS3MDL_REG_INT_CFG NUM_OF_BYTES_1, STATUS_OK);
        (I2C_WRITE I2C_BUS_ADDR LIS3MDL_REG_INT_CFG NUM_OF_BYTES_1 [w], st)] /\
     forall i, Z.testbit w i =
               if i =? 0 then enableDisable =? 1 else Z.testbit (nth 0 buf 0) i) /\
  (exists w1 st1,
     trace (LIS3MDL_enableDisableIntPin 1 d) =
       [(I2C_READ I2C_BUS_ADDR LIS3MDL_REG_INT_CFG NUM_OF_BYTES_1, STATUS_OK);
        (I2C_WRITE I2C_BUS_ADDR LIS3MDL_REG_INT_CFG NUM_OF_BYTES_1 [w1], st1)] /\
     forall (d' d1' : D) (buf' : list Z),
       i2c_read I2C_BUS_ADDR LIS3MDL_REG_INT_CFG NUM_OF_BYTES_1 d'
         = (STATUS_OK, buf', d1') ->
       nth 0 buf' 0 = w1 ->
       exists w2 st2,
         trace (LIS3MDL_enableDisableIntPin 0 d') =
           [(I2C_READ I2C_BUS_ADDR LIS3MDL_REG_INT_CFG NUM_OF_BYTES_1, STATUS_OK);
            (I2C_WRITE I2C_BUS_ADDR LIS3MDL_REG_INT_CFG NUM_OF_BYTES_1 [w2],
             st2)] /\
         forall i, Z.testbit w2 i =
                   if i =? 0 then false else Z.testbit (nth 0 buf 0) i).
Proof.
  intros Hflag Hread.
  pose proof (read_byte_uint8 _ _ _ _ _ _ _ Hread) as Hbyte. split.
  - exists (intCfg_regValue enableDisable (nth 0 buf 0)). eexists. split.
    + now rewrite (enableDisableIntPin_run _ _ _ _ _ Hflag Hread).
    + intros i. now apply intCfg_regValue_bits.
  - exists (intCfg_regValue 1 (nth 0 buf 0)). eexists. split.
    + now rewrite (enableDisableIntPin_run 1 _ _ _ _ (or_intror eq_refl) Hread).
    + intros d' d1' buf' Hread' Hback.
      pose proof (read_byte_uint8 _ _ _ _ _ _ _ Hread') as Hbyte'.
      exists (intCfg_regValue 0 (nth 0 buf' 0)). eexists. split.
      * now rewrite (enableDisableIntPin_run 0 _ _ _ _ (or_introl eq_refl) Hread').
      * intros i.
        rewrite (intCfg_regValue_bits 0 _ i (or_introl eq_refl) Hbyte').
        destruct (i =? 0) eqn:Hi; [reflexivity |].
        rewrite Hback.
        rewrite (intCfg_regValue_bits 1 _ i (or_intror eq_refl) Hbyte).
        now rewrite Hi.
Qed.

(** C5 (amended): for a recognised axis the operation reads two bytes at
    the axis' low register and stores [(highByte << 8) | lowByte], an
    unsigned 16-bit value equal to [256 * highByte + lowByte]; the signed
    sample is the two's-complement reading of that value, which lies in
    [-32768, 32768) and differs from it by 0 or 65536.  An unrecognised
    selector returns [STATUS_MAG_ERROR] without any bus access. *)
Theorem readAxisData_stores_unsigned_sample
    (axisType axisRegVal cell lo hi : Z) (d d1 : D) :
  axisRegVal_of axisType = Some axisRegVal ->
  i2c_read I2C_BUS_ADDR axisRegVal NUM_OF_BYTES_2 d = (STATUS_OK, [lo; hi], d1) ->
  let sample := Z.lor (Z.shiftl hi 8) lo in
  LIS3MDL_readAxisData axisType (Ref cell) d =
    (STATUS_MAG_OK, Ref sample, d1,
     [(I2C_READ I2C_BUS_ADDR axisRegVal NUM_OF_BYTES_2, STATUS_OK)]) /\
  sample = 256 * hi + lo /\ uint16 sample /\
  -32768 <= as_int16 sample < 32768 /\
  as_int16 sample = (if hi <? 128 then sample else sample - 65536) /\
  (forall (a : Z) (p : ptr) (d' : D),
     a <> LIS3MDL_AXIS_X -> a <> LIS3MDL_AXIS_Y -> a <> LIS3MDL_AXIS_Z ->
     LIS3MDL_readAxisData a p d' = (STATUS_MAG_ERROR, p, d', [])).
Proof.
  intros Haxis Hread sample.
  pose proof (i2c_read_bytes I2C_BUS_ADDR axisRegVal NUM_OF_BYTES_2 d) as Hbytes.
  rewrite Hread in Hbytes. simpl in Hbytes.
  apply Forall_cons_1 in Hbytes as [Hlo Hbytes].
  apply Forall_cons_1 in Hbytes as [Hhi _].
  assert (Hsample : axis_sample [lo; hi] = sample)
    by now apply axis_sample_bytes.
  assert (Hvalue : sample = 256 * hi + lo).
  { unfold sample. rewrite lor_shiftl8_byte by assumption. lia. }
  unfold uint8 in Hlo, Hhi.
  repeat split.
  - now rewrite (readAxisData_run _ _ _ _ _ _ _ Haxis Hread), Hsample.
  - exact Hvalue.
  - lia.
  - lia.
  - unfold as_int16. destruct (Z.ltb_spec sample 32768); lia.
  - unfold as_int16. destruct (Z.ltb_spec sample 32768); lia.
  - unfold as_int16.
    destruct (Z.ltb_spec sample 32768), (Z.ltb_spec hi 128); lia.
  - intros a p d' Hx Hy Hz. apply readAxisData_invalid.
    now apply axisRegVal_of_invalid.
Qed.

End Registers.

(** ** Runs on the register file *)

Lemma dataRate_roundtrip_witness :
  result (LIS3MDL_getOutputDataRate (Ref 0)
            (device (LIS3MDL_setOutputDataRate 0 DATARATE_300_Hz
                       (healthy [(REG_CTRL_REG_1, 0x81)]))))
  = (STATUS_MAG_OK, Ref DATARATE_300_Hz).
Proof.
  destruct (dataRate_roundtrip (D := regfile) 0 DATARATE_300_Hz)
    as (e & _ & _ & Hbus).
  - unfold DATARATE_0_625_Hz, DATARATE_300_Hz, DATARATE_1000_Hz. lia.
  - destruct (Hbus (healthy [(REG_CTRL_REG_1, 0x81)])
                (healthy [(REG_CTRL_REG_1, 0x81)]) [0x81])
      as (w & st & Htrace & Hget).
    + reflexivity.
    + reflexivity.
    + vm_compute in Htrace. injection Htrace as <- <-.
      apply (Hget _ (healthy [(REG_CTRL_REG_1, 0xC3)]) [0xC3]); reflexivity.
Defined.

Lemma setOutputDataRate_preserves_unrelated_bits_witness :
  exists w st,
    trace (LIS3MDL_setOutputDataRate 0 DATARATE_5_Hz
             (healthy [(REG_CTRL_REG_1, 0x81)])) =
      [(I2C_READ I2C_BUS_ADDR REG_CTRL_REG_1 NUM_OF_BYTES_1, STATUS_OK);
       (I2C_WRITE I2C_BUS_ADDR REG_CTRL_REG_1 NUM_OF_BYTES_1 [w], st)] /\
    forall i, Z.testbit CTRL_REG1_RATE_FIELDS i = false ->
              Z.testbit w i = Z.testbit (nth 0 [0x81] 0) i.
Proof.
  apply (setOutputDataRate_preserves_unrelated_bits 0 DATARATE_5_Hz
           (healthy [(REG_CTRL_REG_1, 0x81)])
           (healthy [(REG_CTRL_REG_1, 0x81)]) [0x81]).
  - unfold DATARATE_0_625_Hz, DATARATE_5_Hz, DATARATE_1000_Hz. lia.
  - reflexivity.
Defined.

Lemma setOutputDataRate_only_sets_bits_witness :
  exists e w st,
    dataRate_bits 0 DATARATE_1000_Hz = Some e /\
    trace (LIS3MDL_setOutputDataRate 0 DATARATE_1000_Hz
             (healthy [(REG_CTRL_REG_1, 0x7D)])) =
      [(I2C_READ I2C_BUS_ADDR REG_CTRL_REG_1 NUM_OF_BYTES_1, STATUS_OK);
       (I2C_WRITE I2C_BUS_ADDR REG_CTRL_REG_1 NUM_OF_BYTES_1 [w], st)] /\
    w = Z.lor (nth 0 [0x7D] 0) e /\
    forall i, Z.testbit (nth 0 [0x7D] 0) i = true -> Z.testbit w i = true.
Proof.
  apply (setOutputDataRate_only_sets_bits 0 DATARATE_1000_Hz
           (healthy [(REG_CTRL_REG_1, 0x7D)])
           (healthy [(REG_CTRL_REG_1, 0x7D)]) [0x7D]).
  - unfold DATARATE_0_625_Hz, DATARATE_1000_Hz. lia.
  - reflexivity.
Defined.

(** C4: on a register left in fast mode by an earlier setting of 155 Hz
    (byte [0x62]), setting the normal rate 10 Hz writes [0x72]: the fast-ODR
    flag (bit 1) is still set in the byte written, and the rate read back
    is 155 Hz, not 10 Hz. *)
Theorem setOutputDataRate_normal_rate_keeps_fast_flag :
  let d := healthy [(REG_CTRL_REG_1, 0x62)] in
  let r := LIS3MDL_setOutputDataRate 0 DATARATE_10_Hz d in
  device (LIS3MDL_setOutputDataRate 0 DATARATE_155_Hz (healthy [])) = d /\
  result r = STATUS_MAG_OK /\
  trace r =
    [(I2C_READ I2C_BUS_ADDR REG_CTRL_REG_1 NUM_OF_BYTES_1, STATUS_OK);
     (I2C_WRITE I2C_BUS_ADDR REG_CTRL_REG_1 NUM_OF_BYTES_1 [0x72], STATUS_OK)] /\
  Z.testbit 0x72 REG_CTRL_REG1_BIT_POS_FAST_ORD = true /\
  result (LIS3MDL_getOutputDataRate (Ref 0) (device r))
    = (STATUS_MAG_OK, Ref DATARATE_155_Hz).
Proof. vm_compute. repeat split; reflexivity. Qed.

(** An invalid rate code still costs a read of control register 1, and an
    invalid enable flag costs nothing. *)
Lemma invalid_input_is_rejected_witness :
  (exists st buf d1,
     i2c_read I2C_BUS_ADDR REG_CTRL_REG_1 NUM_OF_BYTES_1 (healthy [])
       = (st, buf, d1) /\
     magDriver (SetOutputDataRate 0 15) (healthy []) =
       ((if status_t_nonzero st then STATUS_BUS_ERROR else STATUS_MAG_ERROR,
         None),
        d1, [(I2C_READ I2C_BUS_ADDR REG_CTRL_REG_1 NUM_OF_BYTES_1, st)])) /\
  magDriver (EnableDisableIntPin 2) (healthy []) =
    ((STATUS_MAG_ERROR, None), healthy [], []).
Proof.
  split.
  - exact (invalid_input_is_rejected (SetOutputDataRate 0 15) (healthy [])
             eq_refl).
  - exact (invalid_input_is_rejected (EnableDisableIntPin 2) (healthy [])
             eq_refl).
Defined.

(** C3 fails as stated: the undefined rate code 15 is an invalid input, yet
    [LIS3MDL_setOutputDataRate] reads control register 1 before rejecting it. *)
Lemma setOutputDataRate_invalid_rate_reads_bus :
  ~ (forall (c : driver_call) (d : regfile),
       invalid_input c = true ->
       (result (magDriver c d)).1 = STATUS_MAG_ERROR /\
       trace (magDriver c d) = []).
Proof.
  intros Hclaim.
  destruct (Hclaim (SetOutputDataRate 0 15) (healthy []) eq_refl) as [_ Htrace].
  vm_compute in Htrace. discriminate Htrace.
Qed.

(** The X sample [0xFFFF] is handed to the caller as 65535. *)
Lemma readAxisData_stores_unsigned_sample_witness :
  let d := healthy [(LIS3MDL_OUT_X_L_REG, 0xFF); (LIS3MDL_OUT_X_H_REG, 0xFF)] in
  LIS3MDL_readAxisData LIS3MDL_AXIS_X (Ref 0) d =
    (STATUS_MAG_OK, Ref 65535, d,
     [(I2C_READ I2C_BUS_ADDR LIS3MDL_OUT_X_L_REG NUM_OF_BYTES_2, STATUS_OK)]) /\
  as_int16 65535 = -1.
Proof.
  intros d.
  destruct (readAxisData_stores_unsigned_sample
              LIS3MDL_AXIS_X LIS3MDL_OUT_X_L_REG 0 0xFF 0xFF d d)
    as (Hrun & _ & _ & _ & Hsigned & _).
  - reflexivity.
  - reflexivity.
  - split; [exact Hrun | exact Hsigned].
Defined.

(** C5 fails as stated: with the bytes [0xFF, 0xFF] the value stored through
    the [uint16_t] output pointer is 65535, not -1. *)
Lemma readAxisData_does_not_store_minus_one :
  result (LIS3MDL_readAxisData LIS3MDL_AXIS_X (Ref 0)
            (healthy [(LIS3MDL_OUT_X_L_REG, 0xFF); (LIS3MDL_OUT_X_H_REG, 0xFF)]))
  <> (STATUS_MAG_OK, Ref (-1)).
Proof. vm_compute. intros Heq. discriminate Heq. Qed.

(** The samples of the two byte pairs, as stored and as read by the caller. *)
Example readAxisData_0x1234 :
  result (LIS3MDL_readAxisData LIS3MDL_AXIS_X (Ref 0)
            (healthy [(LIS3MDL_OUT_X_L_REG, 0x34); (LIS3MDL_OUT_X_H_REG, 0x12)]))
  = (STATUS_MAG_OK, Ref 4660) /\ as_int16 4660 = 4660.
Proof. split; reflexivity. Qed.

(** Enabling and then disabling the interrupt pin on a register holding
    [0xAA]: the second call writes [0xAA] again. *)
Lemma enableDisableIntPin_changes_only_IEN_witness :
  let d := healthy [(LIS3MDL_REG_INT_CFG, 0xAA)] in
  exists w2 st2,
    trace (LIS3MDL_enableDisableIntPin 0
             (device (LIS3MDL_enableDisableIntPin 1 d))) =
      [(I2C_READ I2C_BUS_ADDR LIS3MDL_REG_INT_CFG NUM_OF_BYTES_1, STATUS_OK);
       (I2C_WRITE I2C_BUS_ADDR LIS3MDL_REG_INT_CFG NUM_OF_BYTES_1 [w2], st2)] /\
    forall i, Z.testbit w2 i = if i =? 0 then false else Z.testbit 0xAA i.
Proof.
  intros d.
  destruct (enableDisableIntPin_changes_only_IEN 1 d d [0xAA])
    as [_ (w1 & st1 & Htrace & Hnext)].
  - right. reflexivity.
  - reflexivity.
  - vm_compute in Htrace. injection Htrace as <- <-.
    apply (Hnext (healthy [(LIS3MDL_REG_INT_CFG, 0xAB)])
             (healthy [(LIS3MDL_REG_INT_CFG, 0xAB)]) [0xAB]); reflexivity.
Defined.

(** Control register 2 holding [0xC5] has the code of 12 gauss in bits 6:5. *)
Lemma getFullScaleConfig_returns_code_witness :
  let d := healthy [(REG_CTRL_REG_2, 0xC5)] in
  LIS3MDL_getFullScaleConfig (Ref 0) d =
    (STATUS_MAG_OK, Ref RANGE_12_GAUSS, d,
     [(I2C_READ I2C_BUS_ADDR REG_CTRL_REG_2 NUM_OF_BYTES_1, STATUS_OK)]) /\
  fullScale_store 4 (Ref 0) = (STATUS_MAG_ERROR, Ref 0).
Proof.
  intros d.
  destruct (getFullScaleConfig_returns_code RANGE_12_GAUSS 0 d d [0xC5])
    as [Hrun Hcheck].
  - unfold RANGE_4_GAUSS, RANGE_12_GAUSS, RANGE_16_GAUSS. lia.
  - reflexivity.
  - reflexivity.
  - split; [exact Hrun |]. apply Hcheck. unfold RANGE_16_GAUSS. lia.
Defined.

(** Each of the five operations on a bus that fails: at the read for the
    three queries, at the write that follows a good read for the two
    read-modify-write operations. *)
Lemma bus_failure_is_reported_witness :
  result (magDriver (GetFullScaleConfig (Ref 7)) (broken []))
    = (STATUS_BUS_ERROR, Some (Ref 7)) /\
  result (magDriver (SetOutputDataRate 0 DATARATE_10_Hz)
            (RegFile ∅ [false; true]))
    = (STATUS_BUS_ERROR, None) /\
  result (magDriver (GetOutputDataRate (Ref 7)) (broken []))
    = (STATUS_BUS_ERROR, Some (Ref 7)) /\
  result (magDriver (EnableDisableIntPin 1) (RegFile ∅ [false; true]))
    = (STATUS_BUS_ERROR, None) /\
  result (magDriver (ReadAxisData LIS3MDL_AXIS_Z (Ref 7)) (broken []))
    = (STATUS_BUS_ERROR, Some (Ref 7)).
Proof.
  split; [| split; [| split; [| split]]].
  - exact (proj1 (bus_failure_is_reported (GetFullScaleConfig (Ref 7))
                    (broken []) eq_refl)).
  - exact (proj1 (bus_failure_is_reported
                    (SetOutputDataRate 0 DATARATE_10_Hz)
                    (RegFile ∅ [false; true]) eq_refl)).
  - exact (proj1 (bus_failure_is_reported (GetOutputDataRate (Ref 7))
                    (broken []) eq_refl)).
  - exact (proj1 (bus_failure_is_reported (EnableDisableIntPin 1)
                    (RegFile ∅ [false; true]) eq_refl)).
  - exact (proj1 (bus_failure_is_reported
                    (ReadAxisData LIS3MDL_AXIS_Z (Ref 7)) (broken []) eq_refl)).
Defined.

(** Control register 1 holding [0x42]: fast mode, high performance. *)
Lemma getOutputDataRate_fast_is_total_witness :
  let d := healthy [(REG_CTRL_REG_1, 0x42)] in
  exists rate,
    LIS3MDL_getOutputDataRate (Ref 0) d =
      (STATUS_MAG_OK, Ref rate, d,
       [(I2C_READ I2C_BUS_ADDR REG_CTRL_REG_1 NUM_OF_BYTES_1, STATUS_OK)]) /\
    In rate [DATARATE_155_Hz; DATARATE_300_Hz; DATARATE_560_Hz;
             DATARATE_1000_Hz].
Proof.
  intros d.
  apply (getOutputDataRate_fast_is_total 0 d d [0x42]); reflexivity.
Defined.

(** * Further properties of the codec and of the operations *)

(** ** Field extraction and insertion *)

(** X1: extracting a field that was just inserted gives the value back,
    provided the value fits the field. *)
Theorem GET_BIT_SET_BIT (v mask pos : Z) :
  0 <= pos ->
  Z.land (Z.shiftl v pos) mask = Z.shiftl v pos ->
  GET_BIT (SET_BIT v mask pos) mask pos = v.
Proof.
  intros Hpos Hfits. unfold GET_BIT, SET_BIT.
  rewrite <- Z.land_assoc, Z.land_diag, Hfits.
  now rewrite Z.shiftr_shiftl_l, Z.sub_diag, Z.shiftl_0_r by lia.
Qed.

Lemma GET_BIT_SET_BIT_witness :
  GET_BIT (SET_BIT DATARATE_20_Hz REG_CTRL_REG1_BIT_MASK_D02_DO1_DO0
             REG_CTRL_REG1_BIT_POS_D02_DO1_DO0)
    REG_CTRL_REG1_BIT_MASK_D02_DO1_DO0 REG_CTRL_REG1_BIT_POS_D02_DO1_DO0
  = DATARATE_20_Hz.
Proof.
  apply GET_BIT_SET_BIT.
  - unfold REG_CTRL_REG1_BIT_POS_D02_DO1_DO0. lia.
  - reflexivity.
Defined.

(** X2: inserting a field that was just extracted gives the masked byte
    back, provided the mask has no bit below the field position. *)
Theorem SET_BIT_GET_BIT (b mask pos : Z) :
  0 <= pos ->
  Z.shiftl (Z.shiftr mask pos) pos = mask ->
  SET_BIT (GET_BIT b mask pos) mask pos = Z.land b mask.
Proof.
  intros Hpos Hmask. unfold SET_BIT, GET_BIT.
  apply Z.bits_inj'. intros n Hn.
  rewrite !Z.land_spec.
  destruct (Z.lt_ge_cases n pos) as [Hlow | Hhigh].
  - replace (Z.testbit mask n) with false.
    + now rewrite !andb_false_r.
    + rewrite <- Hmask. symmetry. now apply Z.shiftl_spec_low.
  - rewrite Z.shiftl_spec, Z.shiftr_spec, Z.land_spec by lia.
    replace (n - pos + pos) with n by lia.
    now rewrite <- andb_assoc, andb_diag.
Qed.

Lemma SET_BIT_GET_BIT_witness :
  SET_BIT (GET_BIT 0xFF REG_CTRL_REG1_BIT_MASK_OM1_OM0
             REG_CTRL_REG1_BIT_POS_OM1_OM0)
    REG_CTRL_REG1_BIT_MASK_OM1_OM0 REG_CTRL_REG1_BIT_POS_OM1_OM0
  = Z.land 0xFF REG_CTRL_REG1_BIT_MASK_OM1_OM0.
Proof.
  apply SET_BIT_GET_BIT.
  - unfold REG_CTRL_REG1_BIT_POS_OM1_OM0. lia.
  - reflexivity.
Defined.

(** X3: for a mask of [k] contiguous bits at [pos] the extraction is the
    arithmetic one, so it lies in [0, 2^k) whatever the register holds. *)
Theorem GET_BIT_field (b k pos : Z) :
  0 <= pos -> 0 <= k ->
  GET_BIT b (Z.shiftl (Z.ones k) pos) pos = (b / 2 ^ pos) mod 2 ^ k /\
  0 <= GET_BIT b (Z.shiftl (Z.ones k) pos) pos < 2 ^ k.
Proof.
  intros Hpos Hk.
  assert (Heq : GET_BIT b (Z.shiftl (Z.ones k) pos) pos
                = (b / 2 ^ pos) mod 2 ^ k).
  { unfold GET_BIT.
    rewrite Z.shiftr_land, Z.shiftr_shiftl_l, Z.sub_diag, Z.shiftl_0_r by lia.
    now rewrite Z.land_ones, Z.shiftr_div_pow2 by lia. }
  split; [exact Heq |]. rewrite Heq.
  apply Z.mod_pos_bound. now apply Z.pow_pos_nonneg.
Qed.

Lemma GET_BIT_field_witness :
  GET_BIT 0xC5 REG_CTRL_REG2_BIT_MASK_FS1_FS0 REG_CTRL_REG2_BIT_POS_FS1_FS0
    = (0xC5 / 2 ^ 5) mod 2 ^ 2 /\
  0 <= GET_BIT 0xC5 REG_CTRL_REG2_BIT_MASK_FS1_FS0
         REG_CTRL_REG2_BIT_POS_FS1_FS0 < 2 ^ 2.
Proof. apply (GET_BIT_field 0xC5 2 5); lia. Defined.

(** The three fields of the header are contiguous masks. *)
Lemma header_masks_contiguous :
  REG_CTRL_REG2_BIT_MASK_FS1_FS0
    = Z.shiftl (Z.ones 2) REG_CTRL_REG2_BIT_POS_FS1_FS0 /\
  REG_CTRL_REG1_BIT_MASK_D02_DO1_DO0
    = Z.shiftl (Z.ones 3) REG_CTRL_REG1_BIT_POS_D02_DO1_DO0 /\
  REG_CTRL_REG1_BIT_MASK_OM1_OM0
    = Z.shiftl (Z.ones 2) REG_CTRL_REG1_BIT_POS_OM1_OM0 /\
  REG_CTRL_REG1_BIT_MASK_FAST_ORD
    = Z.shiftl (Z.ones 1) REG_CTRL_REG1_BIT_POS_FAST_ORD.
Proof. repeat split. Qed.

(** What the full-scale query extracts, for any content of the buffer. *)
Lemma fullScaleRead_range (b : Z) :
  to_uint8 (GET_BIT b REG_CTRL_REG2_BIT_MASK_FS1_FS0
              REG_CTRL_REG2_BIT_POS_FS1_FS0) = (b / 32) mod 4 /\
  0 <= (b / 32) mod 4 <= 3.
Proof.
  destruct (GET_BIT_field b 2 5) as [Heq Hrange]; try lia.
  change (GET_BIT b REG_CTRL_REG2_BIT_MASK_FS1_FS0
            REG_CTRL_REG2_BIT_POS_FS1_FS0 = (b / 32) mod 4) in Heq.
  change (0 <= GET_BIT b REG_CTRL_REG2_BIT_MASK_FS1_FS0
                 REG_CTRL_REG2_BIT_POS_FS1_FS0 < 4) in Hrange.
  rewrite Heq in *. split; [| lia].
  apply to_uint8_id. unfold uint8. lia.
Qed.

Section MoreQueries.

Context {D : Type} `{Transport D} `{!TransportOk D}.

(** X4: with a non-null pointer the full-scale query never returns
    [STATUS_MAG_ERROR]: a failed read gives [STATUS_BUS_ERROR] and leaves
    the output alone, and a successful one gives [STATUS_MAG_OK] and stores
    bits 6:5 of the byte read, a code between 0 and 3. *)
Theorem getFullScaleConfig_never_device_error
    (cell : Z) (d d1 : D) (st : status_t) (buf : list Z) :
  i2c_read I2C_BUS_ADDR REG_CTRL_REG_2 NUM_OF_BYTES_1 d = (st, buf, d1) ->
  let code := (nth 0 buf 0 / 32) mod 4 in
  LIS3MDL_getFullScaleConfig (Ref cell) d =
    (match st with
     | STATUS_OK => (STATUS_MAG_OK, Ref code)
     | STATUS_ERROR => (STATUS_BUS_ERROR, Ref cell)
     end,
     d1, [(I2C_READ I2C_BUS_ADDR REG_CTRL_REG_2 NUM_OF_BYTES_1, st)]) /\
  RANGE_4_GAUSS <= code <= RANGE_16_GAUSS.
Proof.
  intros Hread code.
  destruct (fullScaleRead_range (nth 0 buf 0)) as [Heq Hrange].
  split; [| exact Hrange].
  rewrite (getFullScaleConfig_run _ _ _ _ _ Hread), Heq. fold code.
  destruct st; [| reflexivity]. simpl status_t_nonzero. cbv iota.
  unfold fullScale_store, RANGE_4_GAUSS, RANGE_16_GAUSS.
  destruct (Z.ltb_spec code 0), (Z.gtb_spec code 3); simpl; try lia.
  reflexivity.
Qed.

(** X5: a successful data-rate query always returns [STATUS_MAG_OK] with one
    of the twelve codes: the rate field when the fast-ODR flag is clear, and
    11 minus the mode field when it is set. *)
Theorem getOutputDataRate_closed_form
    (cell : Z) (d d1 : D) (buf : list Z) :
  i2c_read I2C_BUS_ADDR REG_CTRL_REG_1 NUM_OF_BYTES_1 d = (STATUS_OK, buf, d1) ->
  let b := nth 0 buf 0 in
  let rate := if Z.testbit b 1 then DATARATE_1000_Hz - (b / 32) mod 4
              else (b / 4) mod 8 in
  LIS3MDL_getOutputDataRate (Ref cell) d =
    (STATUS_MAG_OK, Ref rate, d1,
     [(I2C_READ I2C_BUS_ADDR REG_CTRL_REG_1 NUM_OF_BYTES_1, STATUS_OK)]) /\
  DATARATE_0_625_Hz <= rate <= DATARATE_1000_Hz.
Proof.
  intros Hread b rate.
  pose proof (read_byte_uint8 _ _ _ _ _ _ _ Hread) as Hbyte. fold b in Hbyte.
  pose proof (uint8_forallb
    (fun b => match dataRate_decode b with
              | Some r =>
                  (r =? (if Z.testbit b 1 then DATARATE_1000_Hz - (b / 32) mod 4
                         else (b / 4) mod 8)) &&
                  (DATARATE_0_625_Hz <=? r) && (r <=? DATARATE_1000_Hz)
              | None => false
              end) eq_refl b Hbyte) as Hcheck.
  cbv beta in Hcheck. fold rate in Hcheck.
  rewrite (getOutputDataRate_run _ _ _ _ _ Hread). fold b.
  destruct (dataRate_decode b) as [r |]; [| discriminate].
  apply andb_true_iff in Hcheck as [Hcheck Hhi].
  apply andb_true_iff in Hcheck as [Heq Hlo].
  apply Z.eqb_eq in Heq as ->. split; [reflexivity | lia].
Qed.

End MoreQueries.

Lemma getFullScaleConfig_never_device_error_witness :
  LIS3MDL_getFullScaleConfig (Ref 9) (broken [(REG_CTRL_REG_2, 0x60)]) =
    (STATUS_BUS_ERROR, Ref 9, healthy [(REG_CTRL_REG_2, 0x60)],
     [(I2C_READ I2C_BUS_ADDR REG_CTRL_REG_2 NUM_OF_BYTES_1, STATUS_ERROR)]) /\
  RANGE_4_GAUSS <= (nth 0 [0] 0 / 32) mod 4 <= RANGE_16_GAUSS.
Proof.
  apply (getFullScaleConfig_never_device_error 9
           (broken [(REG_CTRL_REG_2, 0x60)])
           (healthy [(REG_CTRL_REG_2, 0x60)]) STATUS_ERROR [0]).
  reflexivity.
Defined.

Lemma getOutputDataRate_closed_form_witness :
  let d := healthy [(REG_CTRL_REG_1, 0x94)] in
  LIS3MDL_getOutputDataRate (Ref 0) d =
    (STATUS_MAG_OK, Ref DATARATE_20_Hz, d,
     [(I2C_READ I2C_BUS_ADDR REG_CTRL_REG_1 NUM_OF_BYTES_1, STATUS_OK)]) /\
  DATARATE_0_625_Hz <= DATARATE_20_Hz <= DATARATE_1000_Hz.
Proof.
  intros d.
  apply (getOutputDataRate_closed_form 0 d d [0x94]). reflexivity.
Defined.

(** ** More on the data-rate codec *)

(** The bits encoded do not depend on what [omValue] starts with. *)
Lemma dataRate_bits_omValue (omValue1 omValue2 dataRate : Z) :
  dataRate_bits omValue1 dataRate = dataRate_bits omValue2 dataRate.
Proof.
  destruct (Z.lt_ge_cases dataRate DATARATE_0_625_Hz) as [Hlow | Hlow];
    [| destruct (Z.lt_ge_cases DATARATE_1000_Hz dataRate) as [Hhigh | Hhigh]].
  - now rewrite !dataRate_bits_invalid by (left; exact Hlow).
  - now rewrite !dataRate_bits_invalid by (right; exact Hhigh).
  - assert (Hrate : DATARATE_0_625_Hz <= dataRate <= DATARATE_1000_Hz) by lia.
    apply valid_dataRate_cases in Hrate. simpl in Hrate.
    repeat (destruct Hrate as [<- | Hrate]; [reflexivity |]).
    contradiction.
Qed.

(** X6: the local [omValue] of [LIS3MDL_setOutputDataRate] is declared
    without initialiser, but the value it starts with never reaches the bus:
    the operation behaves the same whatever that value is. *)
Theorem setOutputDataRate_ignores_uninitialised_omValue
    {D : Type} `{Transport D} (omValue1 omValue2 dataRate : Z) (d : D) :
  LIS3MDL_setOutputDataRate omValue1 dataRate d
  = LIS3MDL_setOutputDataRate omValue2 dataRate d.
Proof.
  unfold LIS3MDL_setOutputDataRate, dataRate_regValue.
  now rewrite (dataRate_bits_omValue omValue1 omValue2).
Qed.

(** Reading the decoded rate back into bits, by bytes. *)
Lemma dataRate_bits_decode (omValue0 b : Z) :
  uint8 b ->
  exists rate,
    dataRate_decode b = Some rate /\
    dataRate_bits omValue0 rate =
      Some (Z.land b (if Z.testbit b REG_CTRL_REG1_BIT_POS_FAST_ORD
                      then Z.lor REG_CTRL_REG1_BIT_MASK_FAST_ORD
                             REG_CTRL_REG1_BIT_MASK_OM1_OM0
                      else REG_CTRL_REG1_BIT_MASK_D02_DO1_DO0)).
Proof.
  intros Hb.
  pose proof (uint8_forallb
    (fun b => match dataRate_decode b with
              | Some rate =>
                  match dataRate_bits 0 rate with
                  | Some e =>
                      (e =? Z.land b
                              (if Z.testbit b REG_CTRL_REG1_BIT_POS_FAST_ORD
                               then Z.lor REG_CTRL_REG1_BIT_MASK_FAST_ORD
                                      REG_CTRL_REG1_BIT_MASK_OM1_OM0
                               else REG_CTRL_REG1_BIT_MASK_D02_DO1_DO0)) &&
                      (DATARATE_0_625_Hz <=? rate) &&
                      (rate <=? DATARATE_1000_Hz)
                  | None => false
                  end
              | None => false
              end) eq_refl b Hb) as Hcheck.
  cbv beta in Hcheck.
  destruct (dataRate_decode b) as [rate |]; [| discriminate].
  exists rate. split; [reflexivity |].
  destruct (dataRate_bits 0 rate) as [e |] eqn:He; [| discriminate].
  apply andb_true_iff in Hcheck as [Hcheck Hhi].
  apply andb_true_iff in Hcheck as [Heq Hlo].
  apply Z.eqb_eq in Heq as <-.
  now rewrite (dataRate_bits_omValue omValue0 0), He.
Qed.

(** When the rate read back from [Z.lor e cur] is the rate encoded, by bytes
    and rates. *)
Lemma dataRate_decode_lor_iff (omValue0 dataRate cur : Z) :
  DATARATE_0_625_Hz <= dataRate <= DATARATE_1000_Hz -> uint8 cur ->
  exists e,
    dataRate_bits omValue0 dataRate = Some e /\
    (dataRate_decode (Z.lor e cur) = Some dataRate <->
     stale_bits_covered dataRate cur = true).
Proof.
  intros Hrate Hcur.
  pose proof (uint8_forallb
    (fun cur =>
       forallb
         (fun rate =>
            match dataRate_bits 0 rate with
            | Some e =>
                match dataRate_decode (Z.lor e cur) with
                | Some rate' =>
                    Bool.eqb (rate' =? rate) (stale_bits_covered rate cur)
                | None => false
                end
            | None => false
            end) [0; 1; 2; 3; 4; 5; 6; 7; 8; 9; 10; 11])
    eq_refl cur Hcur) as Hcheck.
  cbv beta in Hcheck. rewrite List.forallb_forall in Hcheck.
  specialize (Hcheck dataRate (valid_dataRate_cases dataRate Hrate)).
  rewrite (dataRate_bits_omValue omValue0 0).
  destruct (dataRate_bits 0 dataRate) as [e |]; [| discriminate].
  exists e. split; [reflexivity |].
  destruct (dataRate_decode (Z.lor e cur)) as [rate' |]; [| discriminate].
  apply Bool.eqb_prop in Hcheck. rewrite <- Hcheck, Z.eqb_eq.
  split; [now intros [= ->] | now intros ->].
Qed.

(** OR-ing a part of a value into it changes nothing. *)
Lemma lor_land_absorb (b m : Z) : Z.lor (Z.land b m) b = b.
Proof.
  apply Z.bits_inj'. intros n _. rewrite Z.lor_spec, Z.land_spec.
  now destruct (Z.testbit b n), (Z.testbit m n).
Qed.

Lemma intCfg_regValue_uint8 (enableDisable b : Z) :
  uint8 (intCfg_regValue enableDisable b).
Proof.
  unfold intCfg_regValue. destruct (enableDisable =? 1); apply to_uint8_uint8.
Qed.

Lemma intCfg_regValue_idempotent (enableDisable b : Z) :
  enableDisable = 0 \/ enableDisable = 1 -> uint8 b ->
  intCfg_regValue enableDisable (intCfg_regValue enableDisable b)
  = intCfg_regValue enableDisable b.
Proof.
  intros Hflag Hb. apply Z.bits_inj'. intros i _.
  rewrite !intCfg_regValue_bits
    by (try assumption; apply intCfg_regValue_uint8).
  now destruct (i =? 0).
Qed.

Section Compositions.

Context {D : Type} `{Transport D} `{!TransportOk D}.

(** X7: setting the rate that a query has just returned changes nothing:
    on a register holding the byte the query decoded,
    [LIS3MDL_setOutputDataRate] writes that same byte back. *)
Theorem getOutputDataRate_then_set_rewrites_byte
    (cell omValue0 : Z) (d d1 d' d1' : D) (buf buf' : list Z) :
  i2c_read I2C_BUS_ADDR REG_CTRL_REG_1 NUM_OF_BYTES_1 d = (STATUS_OK, buf, d1) ->
  i2c_read I2C_BUS_ADDR REG_CTRL_REG_1 NUM_OF_BYTES_1 d'
    = (STATUS_OK, buf', d1') ->
  nth 0 buf' 0 = nth 0 buf 0 ->
  exists rate st,
    result (LIS3MDL_getOutputDataRate (Ref cell) d) = (STATUS_MAG_OK, Ref rate) /\
    trace (LIS3MDL_setOutputDataRate omValue0 rate d') =
      [(I2C_READ I2C_BUS_ADDR REG_CTRL_REG_1 NUM_OF_BYTES_1, STATUS_OK);
       (I2C_WRITE I2C_BUS_ADDR REG_CTRL_REG_1 NUM_OF_BYTES_1 [nth 0 buf 0], st)].
Proof.
  intros Hread Hread' Hsame.
  pose proof (read_byte_uint8 _ _ _ _ _ _ _ Hread) as Hbyte.
  destruct (dataRate_bits_decode omValue0 _ Hbyte) as (rate & Hdec & Hbits).
  exists rate. eexists. split.
  - now rewrite (getOutputDataRate_run _ _ _ _ _ Hread), Hdec.
  - rewrite (setOutputDataRate_run _ _ _ _ _ _ Hread').
    unfold dataRate_regValue. rewrite Hbits, Hsame, lor_land_absorb.
    now rewrite to_uint8_id by assumption.
Qed.

(** X8: after [LIS3MDL_setOutputDataRate] has written its byte, a data-rate
    query that reads this byte returns the rate just set exactly when the
    bits the register held before are covered by the new ones; otherwise the
    query returns another rate. *)
Theorem setOutputDataRate_takes_effect_iff
    (omValue0 dataRate cell w : Z) (st : status_t)
    (d d1 d' d1' : D) (buf buf' : list Z) :
  DATARATE_0_625_Hz <= dataRate <= DATARATE_1000_Hz ->
  i2c_read I2C_BUS_ADDR REG_CTRL_REG_1 NUM_OF_BYTES_1 d = (STATUS_OK, buf, d1) ->
  trace (LIS3MDL_setOutputDataRate omValue0 dataRate d) =
    [(I2C_READ I2C_BUS_ADDR REG_CTRL_REG_1 NUM_OF_BYTES_1, STATUS_OK);
     (I2C_WRITE I2C_BUS_ADDR REG_CTRL_REG_1 NUM_OF_BYTES_1 [w], st)] ->
  i2c_read I2C_BUS_ADDR REG_CTRL_REG_1 NUM_OF_BYTES_1 d'
    = (STATUS_OK, buf', d1') ->
  nth 0 buf' 0 = w ->
  (result (LIS3MDL_getOutputDataRate (Ref cell) d')
     = (STATUS_MAG_OK, Ref dataRate) <->
   stale_bits_covered dataRate (nth 0 buf 0) = true).
Proof.
  intros Hrate Hread Htrace Hread' Hback.
  pose proof (read_byte_uint8 _ _ _ _ _ _ _ Hread) as Hbyte.
  destruct (dataRate_decode_lor_iff omValue0 dataRate _ Hrate Hbyte)
    as (e & He & Hiff).
  destruct (setOutputDataRate_writes omValue0 dataRate d d1 buf Hrate Hread)
    as (e' & He' & _ & _ & Htrace').
  assert (e' = e) as -> by congruence.
  rewrite Htrace' in Htrace. injection Htrace as Hw _. subst w.
  rewrite (getOutputDataRate_run _ _ _ _ _ Hread'), Hback, <- Hiff.
  unfold result.
  destruct (dataRate_decode (Z.lor e (nth 0 buf 0))) as [rate' |];
    simpl; split; congruence.
Qed.

(** X9: setting the same rate twice is harmless: a second call that reads
    back the byte the first one wrote writes that byte again. *)
Theorem setOutputDataRate_twice_rewrites_byte
    (omValue0 omValue0' dataRate w : Z) (st : status_t)
    (d d1 d' d1' : D) (buf buf' : list Z) :
  DATARATE_0_625_Hz <= dataRate <= DATARATE_1000_Hz ->
  i2c_read I2C_BUS_ADDR REG_CTRL_REG_1 NUM_OF_BYTES_1 d = (STATUS_OK, buf, d1) ->
  trace (LIS3MDL_setOutputDataRate omValue0 dataRate d) =
    [(I2C_READ I2C_BUS_ADDR REG_CTRL_REG_1 NUM_OF_BYTES_1, STATUS_OK);
     (I2C_WRITE I2C_BUS_ADDR REG_CTRL_REG_1 NUM_OF_BYTES_1 [w], st)] ->
  i2c_read I2C_BUS_ADDR REG_CTRL_REG_1 NUM_OF_BYTES_1 d'
    = (STATUS_OK, buf', d1') ->
  nth 0 buf' 0 = w ->
  exists st',
    trace (LIS3MDL_setOutputDataRate omValue0' dataRate d') =
      [(I2C_READ I2C_BUS_ADDR REG_CTRL_REG_1 NUM_OF_BYTES_1, STATUS_OK);
       (I2C_WRITE I2C_BUS_ADDR REG_CTRL_REG_1 NUM_OF_BYTES_1 [w], st')].
Proof.
  intros Hrate Hread Htrace Hread' Hback.
  destruct (setOutputDataRate_writes omValue0 dataRate d d1 buf Hrate Hread)
    as (e & He & _ & _ & Htrace1).
  rewrite Htrace1 in Htrace. injection Htrace as Hw _.
  destruct (setOutputDataRate_writes omValue0' dataRate d' d1' buf' Hrate Hread')
    as (e' & He' & _ & _ & Htrace2).
  assert (e' = e) as ->
    by (rewrite (dataRate_bits_omValue omValue0' omValue0) in He'; congruence).
  eexists. rewrite Htrace2, Hback, <- Hw.
  now rewrite Z.lor_assoc, Z.lor_diag.
Qed.

(** X10: enabling (or disabling) the interrupt pin twice is harmless: a
    second call with the same flag that reads back the byte the first one
    wrote writes that byte again. *)
Theorem enableDisableIntPin_twice_rewrites_byte
    (enableDisable w : Z) (st : status_t)
    (d d1 d' d1' : D) (buf buf' : list Z) :
  enableDisable = 0 \/ enableDisable = 1 ->
  i2c_read I2C_BUS_ADDR LIS3MDL_REG_INT_CFG NUM_OF_BYTES_1 d
    = (STATUS_OK, buf, d1) ->
  trace (LIS3MDL_enableDisableIntPin enableDisable d) =
    [(I2C_READ I2C_BUS_ADDR LIS3MDL_REG_INT_CFG NUM_OF_BYTES_1, STATUS_OK);
     (I2C_WRITE I2C_BUS_ADDR LIS3MDL_REG_INT_CFG NUM_OF_BYTES_1 [w], st)] ->
  i2c_read I2C_BUS_ADDR LIS3MDL_REG_INT_CFG NUM_OF_BYTES_1 d'
    = (STATUS_OK, buf', d1') ->
  nth 0 buf' 0 = w ->
  exists st',
    trace (LIS3MDL_enableDisableIntPin enableDisable d') =
      [(I2C_READ I2C_BUS_ADDR LIS3MDL_REG_INT_CFG NUM_OF_BYTES_1, STATUS_OK);
       (I2C_WRITE I2C_BUS_ADDR LIS3MDL_REG_INT_CFG NUM_OF_BYTES_1 [w], st')].
Proof.
  intros Hflag Hread Htrace Hread' Hback.
  pose proof (read_byte_uint8 _ _ _ _ _ _ _ Hread) as Hbyte.
  rewrite (enableDisableIntPin_run _ _ _ _ _ Hflag Hread) in Htrace.
  cbv zeta in Htrace. unfold trace in Htrace. simpl in Htrace.
  injection Htrace as Hw _.
  eexists. rewrite (enableDisableIntPin_run _ _ _ _ _ Hflag Hread').
  cbv zeta. unfold trace. simpl.
  now rewrite Hback, <- Hw, intCfg_regValue_idempotent.
Qed.

End Compositions.

(** ** The axis registers *)

Lemma axisRegVal_of_cases (axisType axisRegVal : Z) :
  axisRegVal_of axisType = Some axisRegVal ->
  (axisType = LIS3MDL_AXIS_X /\ axisRegVal = LIS3MDL_OUT_X_L_REG) \/
  (axisType = LIS3MDL_AXIS_Y /\ axisRegVal = LIS3MDL_OUT_Y_L_REG) \/
  (axisType = LIS3MDL_AXIS_Z /\ axisRegVal = LIS3MDL_OUT_Z_L_REG).
Proof.
  unfold axisRegVal_of.
  destruct (Z.eqb_spec axisType LIS3MDL_AXIS_X),
    (Z.eqb_spec axisType LIS3MDL_AXIS_Y),
    (Z.eqb_spec axisType LIS3MDL_AXIS_Z); intros [= <-]; auto.
Qed.

(** X11: a recognised axis selects the low register of that axis, the two
    bytes read are its low and high register, and the register pairs of
    different axes do not overlap. *)
Theorem axisRegVal_of_pairs (axisType axisRegVal : Z) :
  axisRegVal_of axisType = Some axisRegVal ->
  In (axisType, axisRegVal, axisRegVal + 1)
    [(LIS3MDL_AXIS_X, LIS3MDL_OUT_X_L_REG, LIS3MDL_OUT_X_H_REG);
     (LIS3MDL_AXIS_Y, LIS3MDL_OUT_Y_L_REG, LIS3MDL_OUT_Y_H_REG);
     (LIS3MDL_AXIS_Z, LIS3MDL_OUT_Z_L_REG, LIS3MDL_OUT_Z_H_REG)] /\
  (forall axisType' axisRegVal',
     axisRegVal_of axisType' = Some axisRegVal' -> axisType' <> axisType ->
     axisRegVal' + 1 < axisRegVal \/ axisRegVal + 1 < axisRegVal').
Proof.
  intros Haxis. split.
  - destruct (axisRegVal_of_cases _ _ Haxis)
      as [[-> ->] | [[-> ->] | [-> ->]]]; simpl; auto.
  - intros a' r' Haxis' Hne.
    destruct (axisRegVal_of_cases _ _ Haxis)
      as [[-> ->] | [[-> ->] | [-> ->]]],
      (axisRegVal_of_cases _ _ Haxis')
      as [[-> ->] | [[-> ->] | [-> ->]]];
    unfold LIS3MDL_OUT_X_L_REG, LIS3MDL_OUT_Y_L_REG, LIS3MDL_OUT_Z_L_REG;
    try lia; contradiction.
Qed.

Lemma axisRegVal_of_pairs_witness :
  In (LIS3MDL_AXIS_Y, LIS3MDL_OUT_Y_L_REG, LIS3MDL_OUT_Y_L_REG + 1)
    [(LIS3MDL_AXIS_X, LIS3MDL_OUT_X_L_REG, LIS3MDL_OUT_X_H_REG);
     (LIS3MDL_AXIS_Y, LIS3MDL_OUT_Y_L_REG, LIS3MDL_OUT_Y_H_REG);
     (LIS3MDL_AXIS_Z, LIS3MDL_OUT_Z_L_REG, LIS3MDL_OUT_Z_H_REG)] /\
  (forall axisType' axisRegVal',
     axisRegVal_of axisType' = Some axisRegVal' ->
     axisType' <> LIS3MDL_AXIS_Y ->
     axisRegVal' + 1 < LIS3MDL_OUT_Y_L_REG \/
     LIS3MDL_OUT_Y_L_REG + 1 < axisRegVal').
Proof. apply axisRegVal_of_pairs. reflexivity. Defined.

Section MoreAxis.

Context {D : Type} `{Transport D} `{!TransportOk D}.

(** X12: the sample stored loses nothing: its low eight bits are the byte
    at the lower address and the bits above them the byte at the higher one. *)
Theorem readAxisData_sample_lossless
    (axisType axisRegVal cell lo hi : Z) (d d1 : D) :
  axisRegVal_of axisType = Some axisRegVal ->
  i2c_read I2C_BUS_ADDR axisRegVal NUM_OF_BYTES_2 d = (STATUS_OK, [lo; hi], d1) ->
  exists sample,
    result (LIS3MDL_readAxisData axisType (Ref cell) d)
      = (STATUS_MAG_OK, Ref sample) /\
    Z.land sample 0xFF = lo /\ Z.shiftr sample 8 = hi.
Proof.
  intros Haxis Hread.
  pose proof (i2c_read_bytes I2C_BUS_ADDR axisRegVal NUM_OF_BYTES_2 d) as Hbytes.
  rewrite Hread in Hbytes. simpl in Hbytes.
  apply Forall_cons_1 in Hbytes as [Hlo Hbytes].
  apply Forall_cons_1 in Hbytes as [Hhi _].
  exists (Z.lor (Z.shiftl hi 8) lo). split; [| split].
  - rewrite (readAxisData_run _ _ _ _ _ _ _ Haxis Hread).
    unfold result. simpl. now rewrite axis_sample_bytes.
  - rewrite Z.land_lor_distr_l.
    change 255 with (Z.ones 8) at 1. rewrite Z.land_ones by lia.
    rewrite Z.shiftl_mul_pow2, Z.mod_mul, Z.lor_0_l by lia.
    now apply uint8_land_255.
  - rewrite Z.shiftr_lor, Z.shiftr_shiftl_l, Z.sub_diag, Z.shiftl_0_r by lia.
    rewrite (Z.shiftr_div_pow2 lo) by lia. unfold uint8 in Hlo.
    rewrite (Z.div_small lo) by (change (2 ^ 8) with 256; lia).
    apply Z.lor_0_r.
Qed.

End MoreAxis.

Lemma readAxisData_sample_lossless_witness :
  exists sample,
    result (LIS3MDL_readAxisData LIS3MDL_AXIS_Z (Ref 0)
              (healthy [(LIS3MDL_OUT_Z_L_REG, 0xCD); (LIS3MDL_OUT_Z_H_REG, 0xAB)]))
      = (STATUS_MAG_OK, Ref sample) /\
    Z.land sample 0xFF = 0xCD /\ Z.shiftr sample 8 = 0xAB.
Proof.
  apply (readAxisData_sample_lossless LIS3MDL_AXIS_Z LIS3MDL_OUT_Z_L_REG 0
           0xCD 0xAB _
           (healthy [(LIS3MDL_OUT_Z_L_REG, 0xCD); (LIS3MDL_OUT_Z_H_REG, 0xAB)]));
    reflexivity.
Defined.

(** ** Every call through the driver table *)

Section Discipline.

Context {D : Type} `{Transport D} `{!TransportOk D}.

Lemma written_byte_access (reg w : Z) (st : status_t) :
  reg = REG_CTRL_REG_1 \/ reg = LIS3MDL_REG_INT_CFG -> uint8 w ->
  driver_access (I2C_WRITE I2C_BUS_ADDR reg NUM_OF_BYTES_1 [w], st) = true.
Proof.
  intros [-> | ->] [Hlo Hhi]; unfold driver_access; simpl;
    (apply andb_true_iff; split; [now apply Z.leb_le | now apply Z.ltb_lt]).
Qed.

Lemma dataRate_regValue_uint8 (omValue0 dataRate cur w : Z) :
  dataRate_regValue omValue0 dataRate cur = Some w -> uint8 w.
Proof.
  unfold dataRate_regValue.
  destruct (dataRate_bits omValue0 dataRate); intros [= <-].
  apply to_uint8_uint8.
Qed.

(** Every call goes one of the five ways of [outcome]. *)
Lemma magDriver_outcome (c : driver_call) (d : D) :
  outcome c (result (magDriver c d)) (trace (magDriver c d)).
Proof.
  destruct c as [p | omValue0 dataRate | p | enableDisable | axisType p];
    cbn [magDriver].
  - destruct p as [| cell]; [now apply Rejected |]. unfold with_out.
    destruct (i2c_read I2C_BUS_ADDR REG_CTRL_REG_2 NUM_OF_BYTES_1 d)
      as [[st buf] d1] eqn:Hread.
    rewrite (getFullScaleConfig_run _ _ _ _ _ Hread).
    destruct st; simpl status_t_nonzero; cbv iota;
      [| now apply (ReadFailed (GetFullScaleConfig (Ref cell)))].
    destruct (fullScaleRead_range (nth 0 buf 0)) as [-> Hrange].
    unfold fullScale_store, RANGE_4_GAUSS, RANGE_16_GAUSS.
    destruct (Z.ltb_spec ((nth 0 buf 0 / 32) mod 4) 0),
      (Z.gtb_spec ((nth 0 buf 0 / 32) mod 4) 3); simpl; try lia.
    now apply (Answered (GetFullScaleConfig (Ref cell))).
  - unfold without_out.
    destruct (i2c_read I2C_BUS_ADDR REG_CTRL_REG_1 NUM_OF_BYTES_1 d)
      as [[st buf] d1] eqn:Hread.
    rewrite (setOutputDataRate_run _ _ _ _ _ _ Hread).
    destruct st; [| now apply (ReadFailed (SetOutputDataRate _ _))].
    destruct (dataRate_regValue omValue0 dataRate (nth 0 buf 0)) as [w |] eqn:Hw.
    + cbv zeta.
      destruct (i2c_write I2C_BUS_ADDR REG_CTRL_REG_1 NUM_OF_BYTES_1 [w] d1)
        as [st' d2].
      assert (Hvalid : invalid_input (SetOutputDataRate omValue0 dataRate)
                       = false).
      { destruct (invalid_input (SetOutputDataRate omValue0 dataRate)) eqn:Hinv;
          [| reflexivity].
        simpl in Hinv. apply orb_true_iff in Hinv.
        unfold dataRate_regValue in Hw.
        rewrite dataRate_bits_invalid in Hw by lia. discriminate. }
      replace (if status_t_eqb (st', d2).1 STATUS_OK
               then STATUS_MAG_OK else STATUS_BUS_ERROR)
        with (expected_status false (status_t_nonzero st'))
        by (destruct st'; reflexivity).
      apply (Written (SetOutputDataRate omValue0 dataRate));
        [exact Hvalid | reflexivity | reflexivity |].
      apply written_byte_access; [now left |].
      eapply dataRate_regValue_uint8, Hw.
    + apply (RejectedAfterRead (SetOutputDataRate omValue0 dataRate));
        try reflexivity.
      destruct (invalid_input (SetOutputDataRate omValue0 dataRate)) eqn:Hinv;
        [reflexivity |].
      simpl in Hinv. apply orb_false_iff in Hinv.
      destruct (dataRate_regValue_valid omValue0 dataRate (nth 0 buf 0))
        as (e & _ & _ & _ & _ & Hsome);
        [lia | eapply read_byte_uint8, Hread | congruence].
  - destruct p as [| cell]; [now apply Rejected |]. unfold with_out.
    destruct (i2c_read I2C_BUS_ADDR REG_CTRL_REG_1 NUM_OF_BYTES_1 d)
      as [[st buf] d1] eqn:Hread.
    rewrite (getOutputDataRate_run _ _ _ _ _ Hread).
    destruct st; [| now apply (ReadFailed (GetOutputDataRate (Ref cell)))].
    pose proof (dataRate_decode_total _ (read_byte_uint8 _ _ _ _ _ _ _ Hread)).
    destruct (dataRate_decode (nth 0 buf 0)) as [rate |]; [| congruence].
    now apply (Answered (GetOutputDataRate (Ref cell))).
  - unfold without_out.
    destruct (Z.eq_dec enableDisable 0) as [He0 | He0];
      [| destruct (Z.eq_dec enableDisable 1) as [He1 | He1]].
    3: { rewrite enableDisableIntPin_invalid by lia.
         apply (Rejected (EnableDisableIntPin enableDisable)). simpl.
         apply negb_true_iff, orb_false_iff. split; now apply Z.eqb_neq. }
    all: destruct (i2c_read I2C_BUS_ADDR LIS3MDL_REG_INT_CFG NUM_OF_BYTES_1 d)
           as [[st buf] d1] eqn:Hread;
         rewrite (enableDisableIntPin_run enableDisable _ _ _ _
                    ltac:(lia) Hread);
         cbv zeta;
         (destruct st; [| now apply (ReadFailed (EnableDisableIntPin _))]);
         destruct (i2c_write I2C_BUS_ADDR LIS3MDL_REG_INT_CFG NUM_OF_BYTES_1
                     [intCfg_regValue enableDisable (nth 0 buf 0)] d1)
           as [st' d2];
         replace (if status_t_eqb (st', d2).1 STATUS_OK
                  then STATUS_MAG_OK else STATUS_BUS_ERROR)
           with (expected_status false (status_t_nonzero st'))
           by (destruct st'; reflexivity);
         apply (Written (EnableDisableIntPin enableDisable));
           [subst; reflexivity | reflexivity | reflexivity |];
         apply written_byte_access;
           [now right | apply intCfg_regValue_uint8].
  - destruct p as [| cell]; [now apply Rejected |]. unfold with_out.
    destruct (axisRegVal_of axisType) as [axisRegVal |] eqn:Haxis.
    + destruct (i2c_read I2C_BUS_ADDR axisRegVal NUM_OF_BYTES_2 d)
        as [[st buf] d1] eqn:Hread.
      rewrite (readAxisData_run _ _ _ _ _ _ _ Haxis Hread).
      pose proof (axisRegVal_of_cases _ _ Haxis) as Hin.
      assert (Hvalid : invalid_input (ReadAxisData axisType (Ref cell)) = false)
        by (destruct Hin as [[-> ->] | [[-> ->] | [-> ->]]]; reflexivity).
      assert (Hacc : forall st0,
                driver_access
                  (I2C_READ I2C_BUS_ADDR axisRegVal NUM_OF_BYTES_2, st0) = true)
        by (intros st0;
            destruct Hin as [[-> ->] | [[-> ->] | [-> ->]]]; reflexivity).
      destruct st.
      * now apply (Answered (ReadAxisData axisType (Ref cell))).
      * now apply (ReadFailed (ReadAxisData axisType (Ref cell))).
    + rewrite readAxisData_invalid by assumption.
      apply (Rejected (ReadAxisData axisType (Ref cell))). simpl.
      unfold axisRegVal_of in Haxis.
      destruct (axisType =? LIS3MDL_AXIS_X), (axisType =? LIS3MDL_AXIS_Y),
        (axisType =? LIS3MDL_AXIS_Z); try discriminate. reflexivity.
Qed.

End Discipline.

Section CallProperties.

Context {D : Type} `{Transport D} `{!TransportOk D}.

(** Case analysis on the way a call went. *)
Ltac by_outcome c d :=
  generalize (magDriver_outcome c d);
  generalize (result (magDriver c d)) (trace (magDriver c d));
  intros r t Hout;
  destruct Hout as [Hinv | e Hw Hf Ha | e v Hinv Hp Hw Hf Ha
                   | e Hinv Hp Hw Hf Ha | reg w st Hinv Hp Har Haw].

(** X13: the three queries never write to the bus: a call with an output
    parameter makes at most one access, and that access is a read. *)
Theorem queries_never_write (c : driver_call) (d : D) :
  out_param c <> None ->
  some_write (trace (magDriver c d)) = false /\
  (length (trace (magDriver c d)) <= 1)%nat.
Proof.
  by_outcome c d; intros Hout; try congruence;
    unfold some_write; cbn [existsb length]; rewrite ?Hw; auto.
Qed.

(** X14: the bus discipline of every call: it makes no access, one read, or
    a successful one-byte read followed by one write to the register just
    read; every access goes to the device at [I2C_BUS_ADDR], reads only the
    registers the driver knows, and writes a single byte to control
    register 1 or to the interrupt configuration. *)
Theorem magDriver_bus_discipline (c : driver_call) (d : D) :
  read_modify_write (trace (magDriver c d)) = true /\
  forallb driver_access (trace (magDriver c d)) = true.
Proof.
  by_outcome c d; cbn [forallb]; rewrite ?Ha, ?Har, ?Haw;
    (split; [| reflexivity]).
  - reflexivity.
  - destruct e as [[addr reg len | addr reg len data] [|]];
      [reflexivity | reflexivity | discriminate | discriminate].
  - destruct e as [[addr reg len | addr reg len data] [|]];
      [reflexivity | reflexivity | discriminate | discriminate].
  - destruct e as [[addr reg len | addr reg len data] [|]];
      [reflexivity | reflexivity | discriminate | discriminate].
  - simpl. now rewrite !Z.eqb_refl.
Qed.

(** X15: the status of every call is decided by two facts: it is
    [STATUS_BUS_ERROR] exactly when an access to the bus failed, otherwise
    [STATUS_MAG_ERROR] exactly when the input is invalid, and
    [STATUS_MAG_OK] otherwise. *)
Theorem magDriver_status (c : driver_call) (d : D) :
  (result (magDriver c d)).1 =
    expected_status (invalid_input c) (some_failed (trace (magDriver c d))).
Proof.
  by_outcome c d; unfold some_failed; cbn [existsb fst];
    rewrite ?Hf, ?Hinv; try reflexivity.
  unfold failed. cbn [snd status_t_nonzero orb]. now destruct st.
Qed.


End CallProperties.

(** ** The test functions and [main] *)

Section TestProperties.

Context {D : Type} `{Transport D} `{!TransportOk D}.

Lemma bind_run {A B : Type} (m : io D A) (k : A -> io D B) (d : D) :
  (m ≫= k) d =
    (result (k (result (m d)) (device (m d))),
     device (k (result (m d)) (device (m d))),
     trace (m d) ++ trace (k (result (m d)) (device (m d)))).
Proof.
  unfold mbind, io_bind, bind, result, device, trace.
  destruct (m d) as [[a d1] t1]. simpl.
  now destruct (k a d1) as [[b d2] t2].
Qed.

Lemma keeps_discipline_ret {A : Type} (a : A) :
  keeps_discipline (mret a : io D A).
Proof. intros d. reflexivity. Qed.

Lemma keeps_discipline_bind {A B : Type} (m : io D A) (k : A -> io D B) :
  keeps_discipline m -> (forall a, keeps_discipline (k a)) ->
  keeps_discipline (m ≫= k).
Proof.
  intros Hm Hk d. rewrite bind_run. unfold trace at 1. simpl.
  rewrite forallb_app, Hm. apply Hk.
Qed.

Lemma keeps_discipline_call (c : driver_call) :
  keeps_discipline (magDriver c).
Proof.
  intros d. generalize (magDriver_outcome c d).
  generalize (result (magDriver c d)) (trace (magDriver c d)).
  intros r t Hout.
  destruct Hout as [Hinv | e Hw Hf Ha | e v Hinv Hp Hw Hf Ha
                   | e Hinv Hp Hw Hf Ha | reg w st Hinv Hp Har Haw];
    cbn [forallb]; now rewrite ?Ha, ?Har, ?Haw.
Qed.

(** One step of a test: a call through the table, then the rest. *)
Ltac discipline :=
  repeat first
    [ apply keeps_discipline_ret
    | apply keeps_discipline_bind; [apply keeps_discipline_call | intros [? ?]]
    | apply keeps_discipline_bind; [| intros ?] ].

(** X20: the whole test program keeps the bus discipline of the driver:
    whatever the bus answers, each test function and [main] only ever access
    the device at [I2C_BUS_ADDR], and only write single bytes to control
    register 1 and to the interrupt configuration. *)
Theorem tests_keep_discipline (u : uninit) :
  keeps_discipline (test_GetFullScaleConfig u : io D _) /\
  keeps_discipline (test_SetOutputDataRate u : io D _) /\
  keeps_discipline (test_GetOutputDataRate u : io D _) /\
  keeps_discipline (test_EnableDisableIntPin : io D _) /\
  keeps_discipline (test_ReadAxisData u : io D _) /\
  keeps_discipline (main u : io D _).
Proof.
  assert (H1 : keeps_discipline (test_GetFullScaleConfig u : io D _))
    by (unfold test_GetFullScaleConfig; discipline).
  assert (H2 : keeps_discipline (test_SetOutputDataRate u : io D _))
    by (unfold test_SetOutputDataRate; discipline).
  assert (H3 : keeps_discipline (test_GetOutputDataRate u : io D _))
    by (unfold test_GetOutputDataRate; discipline).
  assert (H4 : keeps_discipline (test_EnableDisableIntPin : io D _))
    by (unfold test_EnableDisableIntPin; discipline).
  assert (H5 : keeps_discipline (test_ReadAxisData u : io D _))
    by (unfold test_ReadAxisData; discipline).
  repeat split; try assumption.
  unfold main.
  repeat (apply keeps_discipline_bind; [assumption | intros ?]).
  apply keeps_discipline_ret.
Qed.

End TestProperties.

Section TestVerdicts.

Context {D : Type} `{Transport D} `{!TransportOk D}.

(** The status of one call, from its input and its trace. *)
Lemma call_status (c : driver_call) (d d' : D)
    (st : status_mag_t) (p : option ptr) (t : list bus_event) :
  magDriver c d = ((st, p), d', t) ->
  st = expected_status (invalid_input c) (some_failed t).
Proof.
  intros Hrun. generalize (magDriver_outcome c d). rewrite Hrun.
  unfold result, trace. cbn [fst snd]. intros Hout.
  inversion Hout as [Hinv | e Hw Hf Ha | e v Hinv Hp Hw Hf Ha
                    | e Hinv Hp Hw Hf Ha | reg w st' Hinv Hp Har Haw];
    subst; unfold some_failed; cbn [existsb]; rewrite ?Hf, ?Hinv;
    try reflexivity.
  unfold failed. cbn [snd status_t_nonzero orb]. now destruct st'.
Qed.

(** The full-scale query through the table, with a non-null pointer. *)
Lemma GetFullScaleConfig_call (cell : Z) (d d1 : D)
    (st : status_t) (buf : list Z) :
  i2c_read I2C_BUS_ADDR REG_CTRL_REG_2 NUM_OF_BYTES_1 d = (st, buf, d1) ->
  magDriver (GetFullScaleConfig (Ref cell)) d =
    (match st with
     | STATUS_OK => (STATUS_MAG_OK, Some (Ref ((nth 0 buf 0 / 32) mod 4)))
     | STATUS_ERROR => (STATUS_BUS_ERROR, Some (Ref cell))
     end,
     d1, [(I2C_READ I2C_BUS_ADDR REG_CTRL_REG_2 NUM_OF_BYTES_1, st)]).
Proof.
  intros Hread. cbn [magDriver]. unfold with_out.
  rewrite (getFullScaleConfig_run _ _ _ _ _ Hread).
  destruct st; simpl status_t_nonzero; cbv iota; [| reflexivity].
  destruct (fullScaleRead_range (nth 0 buf 0)) as [-> Hrange].
  unfold fullScale_store, RANGE_4_GAUSS, RANGE_16_GAUSS.
  destruct (Z.ltb_spec ((nth 0 buf 0 / 32) mod 4) 0),
    (Z.gtb_spec ((nth 0 buf 0 / 32) mod 4) 3); simpl; try lia.
  reflexivity.
Qed.

(** A run of a call followed by the rest of a test, taken apart. *)
Lemma bind_inv {A B : Type} (m : io D A) (k : A -> io D B) (d d2 : D)
    (b : B) (t : list bus_event) :
  (m ≫= k) d = (b, d2, t) ->
  exists a d1 t1 t2, m d = (a, d1, t1) /\ k a d1 = (b, d2, t2) /\ t = t1 ++ t2.
Proof.
  unfold mbind, io_bind, bind.
  destruct (m d) as [[a d1] t1]. destruct (k a d1) as [[b' d2'] t2] eqn:Hk.
  intros [= <- <- <-]. now exists a, d1, t1, t2.
Qed.

Lemma ret_inv {A : Type} (a b : A) (d d2 : D) (t : list bus_event) :
  (mret a : io D A) d = (b, d2, t) -> b = a /\ t = [].
Proof.
  unfold mret, io_ret, ret. intros Heq. injection Heq as Hb _ Ht.
  now split.
Qed.

(** Take the next call off the run [E] of a test. *)
Ltac next_call E Ecall st p d1 t1 :=
  let t2 := fresh "rest" in
  apply bind_inv in E as ([st p] & d1 & t1 & t2 & Ecall & E & ->);
  cbv beta iota zeta in E.

(** X17: [test_GetFullScaleConfig] counts three sub-tests and passes all of
    them exactly when the bus answers its first read and fails its second:
    the first and the third sub-test make the same call and expect
    [STATUS_MAG_OK] and [STATUS_BUS_ERROR] of it. *)
Theorem test_GetFullScaleConfig_passes_iff (u : uninit) (d : D) :
  (result (test_GetFullScaleConfig u d)).1 = 3 /\
  ((result (test_GetFullScaleConfig u d)).2 = 3 <->
   trace (test_GetFullScaleConfig u d) =
     [(I2C_READ I2C_BUS_ADDR REG_CTRL_REG_2 NUM_OF_BYTES_1, STATUS_OK);
      (I2C_READ I2C_BUS_ADDR REG_CTRL_REG_2 NUM_OF_BYTES_1, STATUS_ERROR)]).
Proof.
  destruct (test_GetFullScaleConfig u d) as [[[n k] d'] t] eqn:E.
  unfold result, trace. cbn [fst snd].
  unfold test_GetFullScaleConfig in E. cbv zeta in E.
  next_call E E1 s1 p1 d1 t1. next_call E E2 s2 p2 d2 t2.
  next_call E E3 s3 p3 d3 t3.
  apply ret_inv in E as [[= -> ->] ->].
  destruct (i2c_read I2C_BUS_ADDR REG_CTRL_REG_2 NUM_OF_BYTES_1 d)
    as [[r1 buf1] d1'] eqn:Hread1.
  rewrite (GetFullScaleConfig_call _ _ _ _ _ Hread1) in E1.
  injection E2 as <- _ <- <-.
  destruct (i2c_read I2C_BUS_ADDR REG_CTRL_REG_2 NUM_OF_BYTES_1 d1)
    as [[r3 buf3] d3'] eqn:Hread3.
  rewrite (GetFullScaleConfig_call _ _ _ _ _ Hread3) in E3.
  destruct (fullScaleRead_range (nth 0 buf1 0)) as [_ Hrange].
  destruct r1; injection E1 as <- <- _ <-; cbn [cell_of];
    destruct r3; injection E3 as <- _ _ <-;
    rewrite ?(proj2 (Z.geb_le _ _)), ?(proj2 (Z.leb_le _ _)) by lia;
    cbn; (split; [reflexivity |]); split; intros Heq;
    try reflexivity; discriminate.
Qed.

(** X18: [test_GetOutputDataRate] counts four sub-tests and never passes all
    of them: the skipped fast-mode sub-test is counted without ever being
    passed, and the null-pointer sub-test passes whatever the bus does, so
    between one and three are passed. *)
Theorem test_GetOutputDataRate_never_clean (u : uninit) (d : D) :
  (result (test_GetOutputDataRate u d)).1 = 4 /\
  1 <= (result (test_GetOutputDataRate u d)).2 <= 3.
Proof.
  destruct (test_GetOutputDataRate u d) as [[[n k] d'] t] eqn:E.
  unfold result. cbn [fst snd].
  unfold test_GetOutputDataRate in E. cbv zeta in E.
  next_call E E1 s1 p1 d1 t1. next_call E E2 s2 p2 d2 t2.
  next_call E E3 s3 p3 d3 t3.
  apply ret_inv in E as [[= -> ->] ->].
  injection E2 as <- _ _ _.
  destruct s1, s3; cbn; lia.
Qed.

(** The status of a call of a run in which no access failed. *)
Ltac quiet_call Ecall Hquiet :=
  apply call_status in Ecall; unfold some_failed in Ecall;
  rewrite Hquiet in Ecall; cbn in Ecall.

(** X19: on a bus that answers every access of the run, the five test
    functions report 2 of 3, 3 of 4, 2 of 4, 5 of 5 and 5 of 5 sub-tests
    passed: the three sub-tests that expect [STATUS_BUS_ERROR] make an
    ordinary call and fail, every other sub-test that is run passes. *)
Theorem tests_on_a_bus_without_failure (u : uninit) (d : D) :
  (some_failed (trace (test_GetFullScaleConfig u d)) = false ->
   result (test_GetFullScaleConfig u d) = (3, 2)) /\
  (some_failed (trace (test_SetOutputDataRate u d)) = false ->
   result (test_SetOutputDataRate u d) = (4, 3)) /\
  (some_failed (trace (test_GetOutputDataRate u d)) = false ->
   result (test_GetOutputDataRate u d) = (4, 2)) /\
  (some_failed (trace (test_EnableDisableIntPin d)) = false ->
   result (test_EnableDisableIntPin d) = (5, 5)) /\
  (some_failed (trace (test_ReadAxisData u d)) = false ->
   result (test_ReadAxisData u d) = (5, 5)).
Proof.
  split; [| split; [| split; [| split]]].
  - destruct (test_GetFullScaleConfig u d) as [[[n k] d'] t] eqn:E.
    unfold result, trace, some_failed. cbn [fst snd].
    unfold test_GetFullScaleConfig in E. cbv zeta in E.
    next_call E E1 s1 p1 d1 t1. next_call E E2 s2 p2 d2 t2.
    next_call E E3 s3 p3 d3 t3.
    apply ret_inv in E as [[= -> ->] ->].
    rewrite !existsb_app. intros Hquiet.
    apply orb_false_iff in Hquiet as [Hq1 Hquiet].
    apply orb_false_iff in Hquiet as [Hq2 Hquiet].
    apply orb_false_iff in Hquiet as [Hq3 _].
    destruct (i2c_read I2C_BUS_ADDR REG_CTRL_REG_2 NUM_OF_BYTES_1 d)
      as [[r1 buf1] d1'] eqn:Hread1.
    rewrite (GetFullScaleConfig_call _ _ _ _ _ Hread1) in E1.
    destruct (fullScaleRead_range (nth 0 buf1 0)) as [_ Hrange].
    destruct r1; injection E1 as <- <- _ <-; [| discriminate Hq1].
    quiet_call E2 Hq2. quiet_call E3 Hq3. subst s2 s3. cbn [cell_of].
    rewrite (proj2 (Z.geb_le _ _)), (proj2 (Z.leb_le _ _)) by lia.
    reflexivity.
  - destruct (test_SetOutputDataRate u d) as [[[n k] d'] t] eqn:E.
    unfold result, trace, some_failed. cbn [fst snd].
    unfold test_SetOutputDataRate in E. cbv zeta in E.
    next_call E E1 s1 p1 d1 t1. next_call E E2 s2 p2 d2 t2.
    next_call E E3 s3 p3 d3 t3. next_call E E4 s4 p4 d4 t4.
    apply ret_inv in E as [[= -> ->] ->].
    rewrite !existsb_app. intros Hquiet.
    apply orb_false_iff in Hquiet as [Hq1 Hquiet].
    apply orb_false_iff in Hquiet as [Hq2 Hquiet].
    apply orb_false_iff in Hquiet as [Hq3 Hquiet].
    apply orb_false_iff in Hquiet as [Hq4 _].
    quiet_call E1 Hq1. quiet_call E2 Hq2. quiet_call E3 Hq3.
    quiet_call E4 Hq4. now subst.
  - destruct (test_GetOutputDataRate u d) as [[[n k] d'] t] eqn:E.
    unfold result, trace, some_failed. cbn [fst snd].
    unfold test_GetOutputDataRate in E. cbv zeta in E.
    next_call E E1 s1 p1 d1 t1. next_call E E2 s2 p2 d2 t2.
    next_call E E3 s3 p3 d3 t3.
    apply ret_inv in E as [[= -> ->] ->].
    rewrite !existsb_app. intros Hquiet.
    apply orb_false_iff in Hquiet as [Hq1 Hquiet].
    apply orb_false_iff in Hquiet as [Hq2 Hquiet].
    apply orb_false_iff in Hquiet as [Hq3 _].
    quiet_call E1 Hq1. quiet_call E2 Hq2. quiet_call E3 Hq3. now subst.
  - destruct (test_EnableDisableIntPin d) as [[[n k] d'] t] eqn:E.
    unfold result, trace, some_failed. cbn [fst snd].
    unfold test_EnableDisableIntPin in E. cbv zeta in E.
    next_call E E1 s1 p1 d1 t1. next_call E E2 s2 p2 d2 t2.
    next_call E E3 s3 p3 d3 t3. next_call E E4 s4 p4 d4 t4.
    next_call E E5 s5 p5 d5 t5.
    apply ret_inv in E as [[= -> ->] ->].
    rewrite !existsb_app. intros Hquiet.
    apply orb_false_iff in Hquiet as [Hq1 Hquiet].
    apply orb_false_iff in Hquiet as [Hq2 Hquiet].
    apply orb_false_iff in Hquiet as [Hq3 Hquiet].
    apply orb_false_iff in Hquiet as [Hq4 Hquiet].
    apply orb_false_iff in Hquiet as [Hq5 _].
    quiet_call E1 Hq1. quiet_call E2 Hq2. quiet_call E3 Hq3.
    quiet_call E5 Hq5. now subst.
  - destruct (test_ReadAxisData u d) as [[[n k] d'] t] eqn:E.
    unfold result, trace, some_failed. cbn [fst snd].
    unfold test_ReadAxisData in E. cbv zeta in E.
    next_call E E1 s1 p1 d1 t1. next_call E E2 s2 p2 d2 t2.
    next_call E E3 s3 p3 d3 t3. next_call E E4 s4 p4 d4 t4.
    next_call E E5 s5 p5 d5 t5.
    apply ret_inv in E as [[= -> ->] ->].
    rewrite !existsb_app. intros Hquiet.
    apply orb_false_iff in Hquiet as [Hq1 Hquiet].
    apply orb_false_iff in Hquiet as [Hq2 Hquiet].
    apply orb_false_iff in Hquiet as [Hq3 Hquiet].
    apply orb_false_iff in Hquiet as [Hq4 Hquiet].
    apply orb_false_iff in Hquiet as [Hq5 _].
    quiet_call E1 Hq1. quiet_call E2 Hq2. quiet_call E3 Hq3.
    quiet_call E4 Hq4. quiet_call E5 Hq5. now subst.
Qed.

End TestVerdicts.

(** ** Further runs on the register file *)

(** A register in slow mode at 20 Hz ([0x94]) is rewritten as it is. *)
Lemma getOutputDataRate_then_set_rewrites_byte_witness :
  let d := healthy [(REG_CTRL_REG_1, 0x94)] in
  exists rate st,
    result (LIS3MDL_getOutputDataRate (Ref 0) d) = (STATUS_MAG_OK, Ref rate) /\
    trace (LIS3MDL_setOutputDataRate 0 rate d) =
      [(I2C_READ I2C_BUS_ADDR REG_CTRL_REG_1 NUM_OF_BYTES_1, STATUS_OK);
       (I2C_WRITE I2C_BUS_ADDR REG_CTRL_REG_1 NUM_OF_BYTES_1
          [nth 0 [0x94] 0], st)].
Proof.
  intros d.
  apply (getOutputDataRate_then_set_rewrites_byte 0 0 d d d d [0x94] [0x94]);
    reflexivity.
Defined.

(** Setting 10 Hz over a register left at 155 Hz ([0x62]) writes [0x72]:
    the rate read back is not 10 Hz, and the old bits are not covered. *)
Lemma setOutputDataRate_takes_effect_iff_witness :
  result (LIS3MDL_getOutputDataRate (Ref 0) (healthy [(REG_CTRL_REG_1, 0x72)]))
    = (STATUS_MAG_OK, Ref DATARATE_10_Hz) <->
  stale_bits_covered DATARATE_10_Hz (nth 0 [0x62] 0) = true.
Proof.
  apply (setOutputDataRate_takes_effect_iff 0 DATARATE_10_Hz 0 0x72 STATUS_OK
           (healthy [(REG_CTRL_REG_1, 0x62)]) (healthy [(REG_CTRL_REG_1, 0x62)])
           (healthy [(REG_CTRL_REG_1, 0x72)]) (healthy [(REG_CTRL_REG_1, 0x72)])
           [0x62] [0x72]).
  - unfold DATARATE_0_625_Hz, DATARATE_10_Hz, DATARATE_1000_Hz. lia.
  - reflexivity.
  - reflexivity.
  - reflexivity.
  - reflexivity.
Defined.

(** Setting 10 Hz on a register holding [0x81] writes [0x91], twice. *)
Lemma setOutputDataRate_twice_rewrites_byte_witness :
  exists st',
    trace (LIS3MDL_setOutputDataRate 1 DATARATE_10_Hz
             (healthy [(REG_CTRL_REG_1, 0x91)])) =
      [(I2C_READ I2C_BUS_ADDR REG_CTRL_REG_1 NUM_OF_BYTES_1, STATUS_OK);
       (I2C_WRITE I2C_BUS_ADDR REG_CTRL_REG_1 NUM_OF_BYTES_1 [0x91], st')].
Proof.
  apply (setOutputDataRate_twice_rewrites_byte 0 1 DATARATE_10_Hz 0x91 STATUS_OK
           (healthy [(REG_CTRL_REG_1, 0x81)]) (healthy [(REG_CTRL_REG_1, 0x81)])
           (healthy [(REG_CTRL_REG_1, 0x91)]) (healthy [(REG_CTRL_REG_1, 0x91)])
           [0x81] [0x91]).
  - unfold DATARATE_0_625_Hz, DATARATE_10_Hz, DATARATE_1000_Hz. lia.
  - reflexivity.
  - reflexivity.
  - reflexivity.
  - reflexivity.
Defined.

(** Enabling the interrupt pin on a register holding [0xAA] writes [0xAB],
    twice. *)
Lemma enableDisableIntPin_twice_rewrites_byte_witness :
  exists st',
    trace (LIS3MDL_enableDisableIntPin 1
             (healthy [(LIS3MDL_REG_INT_CFG, 0xAB)])) =
      [(I2C_READ I2C_BUS_ADDR LIS3MDL_REG_INT_CFG NUM_OF_BYTES_1, STATUS_OK);
       (I2C_WRITE I2C_BUS_ADDR LIS3MDL_REG_INT_CFG NUM_OF_BYTES_1 [0xAB], st')].
Proof.
  apply (enableDisableIntPin_twice_rewrites_byte 1 0xAB STATUS_OK
           (healthy [(LIS3MDL_REG_INT_CFG, 0xAA)])
           (healthy [(LIS3MDL_REG_INT_CFG, 0xAA)])
           (healthy [(LIS3MDL_REG_INT_CFG, 0xAB)])
           (healthy [(LIS3MDL_REG_INT_CFG, 0xAB)]) [0xAA] [0xAB]).
  - right. reflexivity.
  - reflexivity.
  - reflexivity.
  - reflexivity.
  - reflexivity.
Defined.

Lemma queries_never_write_witness :
  let d := healthy [(LIS3MDL_OUT_Y_L_REG, 1); (LIS3MDL_OUT_Y_H_REG, 2)] in
  some_write (trace (magDriver (ReadAxisData LIS3MDL_AXIS_Y (Ref 0)) d))
    = false /\
  (length (trace (magDriver (ReadAxisData LIS3MDL_AXIS_Y (Ref 0)) d)) <= 1)%nat.
Proof.
  intros d. apply queries_never_write. discriminate.
Defined.

Lemma magDriver_bus_discipline_witness :
  let d := healthy [(REG_CTRL_REG_1, 0x81)] in
  read_modify_write
    (trace (magDriver (SetOutputDataRate 0 DATARATE_80_Hz) d)) = true /\
  forallb driver_access
    (trace (magDriver (SetOutputDataRate 0 DATARATE_80_Hz) d)) = true.
Proof.
  intros d. apply (magDriver_bus_discipline).
Defined.

Lemma magDriver_status_witness :
  (result (magDriver (SetOutputDataRate 0 15) (healthy []))).1
    = expected_status true false /\
  (result (magDriver (EnableDisableIntPin 1) (RegFile ∅ [false; true]))).1
    = expected_status false true.
Proof.
  split.
  - exact (magDriver_status (SetOutputDataRate 0 15) (healthy [])).
  - exact (magDriver_status (EnableDisableIntPin 1) (RegFile ∅ [false; true])).
Defined.


(** The five tests on a register file that never fails. *)
Lemma tests_on_a_bus_without_failure_witness :
  let u := Uninit 0 0 0 0 0 0 0 in
  let d := healthy [] in
  result (test_GetFullScaleConfig u d) = (3, 2) /\
  result (test_SetOutputDataRate u d) = (4, 3) /\
  result (test_GetOutputDataRate u d) = (4, 2) /\
  result (test_EnableDisableIntPin d) = (5, 5) /\
  result (test_ReadAxisData u d) = (5, 5).
Proof.
  intros u d.
  destruct (tests_on_a_bus_without_failure u d)
    as (H1 & H2 & H3 & H4 & H5).
  split; [| split; [| split; [| split]]].
  - apply H1. reflexivity.
  - apply H2. reflexivity.
  - apply H3. reflexivity.
  - apply H4. reflexivity.
  - apply H5. reflexivity.
Defined.

(** [main] on a register file with a few failures scripted. *)
Lemma tests_keep_discipline_witness :
  forallb driver_access
    (trace (main (Uninit 0 0 0 0 0 0 0)
              (RegFile ∅ [false; true; false; true; true]))) = true.
Proof.
  apply (proj2 (proj2 (proj2 (proj2 (proj2
           (tests_keep_discipline (Uninit 0 0 0 0 0 0 0))))))).
Defined.
